(** * thread_scraper.py: the Reddit thread scraper, embedded and verified

    The script fetches one submission and its comment forest through an
    API client, flattens the forest into a depth-annotated list, writes
    four export files and filters the list by author.  This development
    embeds [RedditThreadScraper] and [main] as Rocq functions and proves
    the properties its specification states about them.

    Conventions.  A Python [str] is a [string]; its characters are the
    elements of the string, so every statement about characters is a
    statement about 8-bit (ASCII) text.  A Python [int] is a [Z], except
    for the nesting depth and the comment counter, which only ever count
    up from zero and are [nat].  A Python [float] is a primitive [float].
    [None] is [None].  What the script writes to the terminal, to files
    and what it asks of the API client is recorded in an explicit
    [State]. *)

From Stdlib Require Import String Ascii List ZArith Lia Bool Arith.
From Stdlib Require Import Floats DecimalString DecimalPos DecimalZ.
From Stdlib Require Import Permutation Sorted.
Import ListNotations.

Open Scope string_scope.
Open Scope list_scope.

Infix "+++" := String.append (right associativity, at level 60).

Set Warnings "-register-all".

(** ** Python built-ins used by the script *)

Module Py.

Definition LF : ascii := ascii_of_nat 10.
Definition CR : ascii := ascii_of_nat 13.
Definition SPACE : ascii := ascii_of_nat 32.
Definition DQUOTE : ascii := ascii_of_nat 34.
Definition COMMA : ascii := ascii_of_nat 44.

Definition chr (c : ascii) : string := String c EmptyString.

(** [str(n)] for an [int]. *)
Definition str_int (z : Z) : string := NilZero.string_of_int (Z.to_int z).

Definition str_nat (n : nat) : string := str_int (Z.of_nat n).

(** [str(b)] for a [bool], as an f-string renders it. *)
Definition str_bool (b : bool) : string := if b then "True" else "False".

(** [s * n]. *)
Fixpoint times (s : string) (n : nat) : string :=
  match n with
  | O => EmptyString
  | S k => s +++ times s k
  end.

(** [s.replace(old, new)]; both calls of the script replace one character. *)
Fixpoint replace (old : ascii) (new : string) (s : string) : string :=
  match s with
  | EmptyString => EmptyString
  | String c s' =>
      if Ascii.eqb c old then new +++ replace old new s'
      else String c (replace old new s')
  end.

Definition lower_char (c : ascii) : ascii :=
  let n := nat_of_ascii c in
  if ((65 <=? n)%nat && (n <=? 90)%nat)%bool then ascii_of_nat (n + 32) else c.

(** [s.lower()]. *)
Fixpoint lower (s : string) : string :=
  match s with
  | EmptyString => EmptyString
  | String c s' => String (lower_char c) (lower s')
  end.

(** [s[:n]]. *)
Fixpoint take (n : nat) (s : string) : string :=
  match n, s with
  | S k, String c s' => String c (take k s')
  | _, _ => EmptyString
  end.

(** [s.split(sep)] for a one-character separator. *)
Fixpoint split (sep : ascii) (s : string) : list string :=
  match s with
  | EmptyString => [EmptyString]
  | String c s' =>
      if Ascii.eqb c sep then EmptyString :: split sep s'
      else match split sep s' with
           | [] => [chr c]
           | w :: ws => String c w :: ws
           end
  end.

(** [bool(s)] for a string. *)
Definition truthy (s : string) : bool :=
  match s with EmptyString => false | _ => true end.

(** [bool(x)] for a float. *)
Definition truthy_float (x : float) : bool := negb (PrimFloat.eqb x 0%float).

Section Sorted.
Context {A : Type} (key : A -> Z).

(** Puts [x], which came before every element of [l] in the input,
    in front of the first element whose key does not exceed its own. *)
Fixpoint insert_desc (x : A) (l : list A) : list A :=
  match l with
  | [] => [x]
  | y :: l' =>
      if (key x <? key y)%Z then y :: insert_desc x l' else x :: y :: l'
  end.

(** [sorted(l, key=key, reverse=True)]: a new list, largest key first,
    elements with equal keys in the order they have in [l]. *)
Definition sorted_reverse (l : list A) : list A :=
  fold_right insert_desc [] l.
End Sorted.

(** [enumerate(l, start)]. *)
Fixpoint enumerate {A : Type} (start : nat) (l : list A) : list (nat * A) :=
  match l with
  | [] => []
  | x :: l' => (start, x) :: enumerate (S start) l'
  end.

End Py.

(** ** Data model *)

(** A comment object of the API client: the attributes
    [extract_comment_data] reads.  [c_depth] is [None] when the object has
    no [depth] attribute; [c_edited] is [None] for [False] and the edit
    time otherwise. *)
Record RawComment : Type := mkRawComment {
  c_id : string;
  c_author : option string;
  c_body : string;
  c_score : Z;
  c_created_utc : float;
  c_permalink : string;
  c_parent_id : string;
  c_depth : option nat;
  c_is_submitter : bool;
  c_distinguished : option string;
  c_edited : option float;
  c_controversiality : Z;
  c_gilded : Z
}.

(** The dictionary [extract_comment_data] builds, one field per key. *)
Record CommentData : Type := mkCommentData {
  id : string;
  author : string;
  body : string;
  score : Z;
  created_utc : float;
  created_datetime : string;
  permalink : string;
  parent_id : string;
  depth : nat;
  is_submitter : bool;
  distinguished : option string;
  edited : bool;
  controversiality : Z;
  gilded : Z
}.

(** [comment_data['depth'] = depth]. *)
Definition set_depth (d : CommentData) (n : nat) : CommentData :=
  mkCommentData (id d) (author d) (body d) (score d) (created_utc d)
    (created_datetime d) (permalink d) (parent_id d) n (is_submitter d)
    (distinguished d) (edited d) (controversiality d) (gilded d).

(** The [post_data] dictionary of [scrape_submission]. *)
Record PostData : Type := mkPostData {
  p_id : string;
  p_title : string;
  p_author : string;
  p_score : Z;
  p_upvote_ratio : float;
  p_num_comments : Z;
  p_created_utc : float;
  p_created_datetime : string;
  p_url : string;
  p_selftext : string;
  p_permalink : string;
  p_subreddit : string;
  p_link_flair_text : option string;
  p_over_18 : bool;
  p_spoiler : bool;
  p_locked : bool;
  p_gilded : Z
}.

(** The dictionary [scrape_submission] returns. *)
Record Results : Type := mkResults {
  post : PostData;
  comments : list CommentData;
  total_comments : nat;
  scraped_at : string
}.

(** ** The API client *)

(** Modelled from the spec: the comment forest of the API client, which the
    script uses and does not define.  A listing (the top-level comments of
    a submission, or the replies of a comment) holds comments that are
    already loaded and continuation placeholders, each standing for
    further comments of the same listing that are not fetched yet.
    Resolving a placeholder takes a network call and either yields more
    entries of the listing, among which there may be further placeholders
    (there is no bound on what one listing unfolds to), or raises. *)
Inductive Entry : Type :=
| Reply (raw : RawComment) (replies : list Entry)
| MoreComments (children : list Entry)
| MoreFails (error : string).

(** A loaded comment object: its attributes and its [replies] listing. *)
Record Comment : Type := mkComment {
  raw : RawComment;
  replies : list Entry
}.

(** Modelled from the spec: what resolving all continuation placeholders
    of a listing makes of one entry, namely the comments in listing order,
    or the error of the first placeholder that fails.  The placeholders in
    the replies of these comments are left to the call made for them. *)
Fixpoint load (e : Entry) : string + list Comment :=
  match e with
  | Reply r rs => inr [mkComment r rs]
  | MoreComments children =>
      (fix load_children (l : list Entry) : string + list Comment :=
         match l with
         | [] => inr []
         | x :: l' =>
             match load x with
             | inl err => inl err
             | inr cs =>
                 match load_children l' with
                 | inl err => inl err
                 | inr cs' => inr (cs ++ cs')
                 end
             end
         end) children
  | MoreFails err => inl err
  end.

Fixpoint load_all (l : list Entry) : string + list Comment :=
  match l with
  | [] => inr []
  | x :: l' =>
      match load x with
      | inl err => inl err
      | inr cs =>
          match load_all l' with
          | inl err => inl err
          | inr cs' => inr (cs ++ cs')
          end
      end
  end.

(** The deepest chain of replies below an entry. *)
Fixpoint nesting (e : Entry) : nat :=
  match e with
  | Reply _ rs => S (list_max (map nesting rs))
  | MoreComments children => list_max (map nesting children)
  | MoreFails _ => 0
  end.

Definition height (c : Comment) : nat := S (list_max (map nesting (replies c))).

(** [len(forest.list())]: the objects of a listing and of the listings
    below its loaded comments, placeholders counted as one object each. *)
Fixpoint list_size (e : Entry) : nat :=
  match e with
  | Reply _ rs => S (list_sum (map list_size rs))
  | MoreComments _ => 1
  | MoreFails _ => 1
  end.

(** A submission object: the attributes [scrape_submission] reads and its
    [comments] listing. *)
Record Submission : Type := mkSubmission {
  s_id : string;
  s_title : string;
  s_author : option string;
  s_score : Z;
  s_upvote_ratio : float;
  s_num_comments : Z;
  s_created_utc : float;
  s_url : string;
  s_selftext : string;
  s_permalink : string;
  s_subreddit : string;
  s_link_flair_text : option string;
  s_over_18 : bool;
  s_spoiler : bool;
  s_locked : bool;
  s_gilded : Z;
  s_comments : list Entry
}.

(** [self.reddit]: submission by id, or the error the client raises. *)
Definition Reddit : Type := string -> string + Submission.

(** ** Effects *)

Inductive ApiCall : Type :=
| NewClient (client_id client_secret user_agent : string)
| GetSubmission (submission_id : string)
| ReplaceMore.

(** What the run has done so far: the two attributes of the scraper
    object, the text printed, the files written (latest last) and the
    calls made to the API client. *)
Record State : Type := mkState {
  comment_count : nat;
  all_comments : list CommentData;
  stdout : list string;
  files : list (string * string);
  api_calls : list ApiCall
}.

Definition initial_state : State := mkState 0 [] [] [] [].

Inductive Exn : Type :=
| Exception (msg : string)
| SystemExit (code : Z).

Inductive Outcome (A : Type) : Type :=
| Return (a : A)
| Raise (e : Exn).
Arguments Return {A} a.
Arguments Raise {A} e.

Definition M (A : Type) : Type := State -> Outcome A * State.

Definition ret {A : Type} (a : A) : M A := fun s => (Return a, s).

Definition bind {A B : Type} (m : M A) (k : A -> M B) : M B :=
  fun s =>
    match m s with
    | (Return a, s') => k a s'
    | (Raise e, s') => (Raise e, s')
    end.

Definition raise {A : Type} (e : Exn) : M A := fun s => (Raise e, s).

Notation "x <- m ;; k" := (bind m (fun x => k))
  (at level 61, m at next level, right associativity).
Notation "m ;; k" := (bind m (fun _ => k))
  (at level 61, right associativity).

(** [print(text, end=ending)]. *)
Definition print_end (text ending : string) : M unit :=
  fun s => (Return tt,
            mkState (comment_count s) (all_comments s)
              (stdout s ++ [text +++ ending]) (files s) (api_calls s)).

Definition print (text : string) : M unit := print_end text (Py.chr Py.LF).

(** [with open(name, 'w') as f] followed by the writes [content]. *)
Definition write_file (name content : string) : M unit :=
  fun s => (Return tt,
            mkState (comment_count s) (all_comments s) (stdout s)
              (files s ++ [(name, content)]) (api_calls s)).

Definition call_api (c : ApiCall) : M unit :=
  fun s => (Return tt,
            mkState (comment_count s) (all_comments s) (stdout s) (files s)
              (api_calls s ++ [c])).

Definition set_comment_count (n : nat) : M unit :=
  fun s => (Return tt,
            mkState n (all_comments s) (stdout s) (files s) (api_calls s)).

Definition set_all_comments (l : list CommentData) : M unit :=
  fun s => (Return tt,
            mkState (comment_count s) l (stdout s) (files s) (api_calls s)).

Definition get_comment_count : M nat := fun s => (Return (comment_count s), s).

Definition get_all_comments : M (list CommentData) :=
  fun s => (Return (all_comments s), s).

(** Modelled from the spec: [forest.replace_more(limit=None)] of the API
    client.  It resolves every placeholder of the listing, after which
    iterating the listing yields the returned comments, and raises the
    client's error when a placeholder fails. *)
Definition replace_more (forest : list Entry) : M (list Comment) :=
  call_api ReplaceMore ;;
  match load_all forest with
  | inl err => raise (Exception err)
  | inr cs => ret cs
  end.


(** A block of statements run under [try], updating one local variable:
    what the variable holds when the block ends or is left by an exception,
    and that exception. *)
Definition Block (L : Type) : Type := State -> L * option Exn * State.

(** [try: block  except Exception as e: handler(e)].  The handler of the
    script prints and falls through, so the statement yields the local
    variable; an exit request is no [Exception] and passes through. *)
Definition try_except {L : Type} (block : Block L) (handler : string -> M unit)
  : M L :=
  fun s =>
    match block s with
    | (l, None, s') => (Return l, s')
    | (l, Some (Exception msg), s') => (handler msg ;; ret l) s'
    | (l, Some (SystemExit code), s') => (Raise (SystemExit code), s')
    end.

(** [for reply in replies: comments.extend(visit(reply))]. *)
Fixpoint extend_each (visit : Comment -> M (list CommentData))
  (replies : list Comment) (comments : list CommentData) : Block (list CommentData) :=
  fun s =>
    match replies with
    | [] => (comments, None, s)
    | reply :: rest =>
        match visit reply s with
        | (Return sub, s') => extend_each visit rest (comments ++ sub) s'
        | (Raise e, s') => (comments, Some e, s')
        end
    end.

(** [for x in l: body(x)]. *)
Fixpoint for_each {A : Type} (l : list A) (body : A -> M unit) : M unit :=
  match l with
  | [] => ret tt
  | x :: l' => body x ;; for_each l' body
  end.

(** ** The scraper *)

Section Scraper.

(** [datetime.fromtimestamp(t).isoformat()], in the time zone of the run. *)
Variable isoformat : float -> string.
(** [datetime.now().isoformat()]. *)
Variable now : string.
(** The format [:.1f] of an f-string. *)
Variable format_1f : float -> string.
(** [json.dumps(results, indent=2, ensure_ascii=False)]. *)
Variable json_dumps : Results -> string.
(** [praw.Reddit(client_id, client_secret, user_agent)]. *)
Variable praw_Reddit : string -> string -> string -> Reddit.

(** [extract_comment_data(comment)].  An author object is truthy, so the
    placeholder stands for [None] only; [bool(comment.edited)] is [False]
    for [False] and for an edit time of zero. *)
Definition extract_comment_data (comment : RawComment) : CommentData :=
  {| id := c_id comment;
     author := match c_author comment with
               | Some name => name
               | None => "[deleted]"
               end;
     body := c_body comment;
     score := c_score comment;
     created_utc := c_created_utc comment;
     created_datetime := isoformat (c_created_utc comment);
     permalink := c_permalink comment;
     parent_id := c_parent_id comment;
     depth := match c_depth comment with Some d => d | None => 0 end;
     is_submitter := c_is_submitter comment;
     distinguished := c_distinguished comment;
     edited := match c_edited comment with
               | Some t => Py.truthy_float t
               | None => false
               end;
     controversiality := c_controversiality comment;
     gilded := c_gilded comment |}.

(** The record a comment contributes at a given depth (lines 73-74). *)
Definition comment_record (comment : Comment) (depth : nat) : CommentData :=
  set_depth (extract_comment_data (raw comment)) depth.

Definition progress_message (n : nat) : string :=
  "  Processed " +++ Py.str_nat n +++ " comments...".

Definition warning_message (comment : Comment) (e : string) : string :=
  Py.chr Py.LF +++ "  Warning: Error processing replies for comment "
    +++ c_id (raw comment) +++ ": " +++ e.

(** [process_comment_tree] run with a bound on the nesting it descends;
    the bound is spent one per level of replies and the branch for a spent
    bound is never reached from [process_comment_tree] below. *)
Fixpoint process_comment_tree_upto (fuel : nat) (comment : Comment) (depth : nat)
  : M (list CommentData) :=
  match fuel with
  | O => ret []
  | S fuel' =>
      let comment_data := comment_record comment depth in
      let comments := [comment_data] in
      n <- get_comment_count ;;
      set_comment_count (n + 1) ;;
      n <- get_comment_count ;;
      (if (n mod 50 =? 0)%nat then print_end (progress_message n) (Py.chr Py.CR)
       else ret tt) ;;
      try_except
        (fun s =>
           match replace_more (replies comment) s with
           | (Raise e, s') => (comments, Some e, s')
           | (Return listed, s') =>
               extend_each
                 (fun reply => process_comment_tree_upto fuel' reply (depth + 1))
                 listed comments s'
           end)
        (fun e => print (warning_message comment e))
  end.

(** [process_comment_tree(comment, depth)]: the recursion descends one
    level per nesting level of the replies, so [height comment] bounds it. *)
Definition process_comment_tree (comment : Comment) (depth : nat)
  : M (list CommentData) :=
  process_comment_tree_upto (height comment) comment depth.

(** The state in which the [try] statement of a visit starts its loop:
    the counter is incremented, the progress line is printed at every
    fiftieth comment, and [replace_more] has been called. *)
Definition after_visit (s : State) : State :=
  let n := comment_count s + 1 in
  mkState n (all_comments s)
    (stdout s ++ (if (n mod 50 =? 0)%nat
                  then [progress_message n +++ Py.chr Py.CR] else []))
    (files s) (api_calls s ++ [ReplaceMore]).

(** The contract [flatten(node, depth)] of the specification, written as
    a function of the comment alone: the node at [depth], then the subtrees
    of its replies in listing order at [depth + 1]; a node whose replies
    cannot be loaded contributes itself only.  [process_comment_tree] is
    proved to return this list. *)
Fixpoint flatten_upto (fuel : nat) (node : Comment) (depth : nat)
  : list CommentData :=
  match fuel with
  | O => []
  | S fuel' =>
      comment_record node depth ::
      match load_all (replies node) with
      | inl _ => []
      | inr listed => flat_map (fun reply => flatten_upto fuel' reply (depth + 1)) listed
      end
  end.

Definition flatten (node : Comment) (depth : nat) : list CommentData :=
  flatten_upto (height node) node depth.

(** The [post_data] literal of [scrape_submission], lines 112-130. *)
Definition extract_post_data (submission : Submission) : PostData :=
  {| p_id := s_id submission;
     p_title := s_title submission;
     p_author := match s_author submission with
                 | Some name => name
                 | None => "[deleted]"
                 end;
     p_score := s_score submission;
     p_upvote_ratio := s_upvote_ratio submission;
     p_num_comments := s_num_comments submission;
     p_created_utc := s_created_utc submission;
     p_created_datetime := isoformat (s_created_utc submission);
     p_url := s_url submission;
     p_selftext := s_selftext submission;
     p_permalink := s_permalink submission;
     p_subreddit := s_subreddit submission;
     p_link_flair_text := s_link_flair_text submission;
     p_over_18 := s_over_18 submission;
     p_spoiler := s_spoiler submission;
     p_locked := s_locked submission;
     p_gilded := s_gilded submission |}.

Definition upvoted (ratio : float) : string :=
  format_1f (ratio * 100)%float.

(** [scrape_submission(submission_id)], with [self.reddit] as an argument.
    The submission object is fetched when its first attribute is read, so
    an unknown id raises while [post_data] is built. *)
Definition scrape_submission (reddit : Reddit) (submission_id : string)
  : M Results :=
  print (Py.times "=" 80) ;;
  print "Reddit Thread Scraper (PRAW)" ;;
  print (Py.times "=" 80) ;;
  print (Py.chr Py.LF +++ "Fetching submission: " +++ submission_id) ;;
  call_api (GetSubmission submission_id) ;;
  match reddit submission_id with
  | inl err => raise (Exception err)
  | inr submission =>
      let post_data := extract_post_data submission in
      print (Py.chr Py.LF +++ "📝 Title: " +++ p_title post_data) ;;
      print ("👤 Author: u/" +++ p_author post_data) ;;
      print ("⬆️  Score: " +++ Py.str_int (p_score post_data) +++ " ("
               +++ upvoted (p_upvote_ratio post_data) +++ "% upvoted)") ;;
      print ("💬 Comments: " +++ Py.str_int (p_num_comments post_data)) ;;
      print ("📅 Posted: " +++ p_created_datetime post_data) ;;
      print (Py.chr Py.LF +++ "🔍 Fetching all comments (this may take a while)...") ;;
      print "   This includes all nested replies and 'more' children..." ;;
      set_comment_count 0 ;;
      set_all_comments [] ;;
      print "   Expanding 'more comments' objects..." ;;
      top_level <- replace_more (s_comments submission) ;;
      print ("   Found "
               +++ Py.str_nat (list_sum (map (fun c => list_size (Reply (raw c) (replies c))) top_level))
               +++ " total comments") ;;
      print "   Processing comment trees..." ;;
      for_each top_level (fun comment =>
        sub <- process_comment_tree comment 0 ;;
        acc <- get_all_comments ;;
        set_all_comments (acc ++ sub)) ;;
      found <- get_all_comments ;;
      print (Py.chr Py.LF +++ "✓ Successfully extracted "
               +++ Py.str_nat (length found) +++ " comments!") ;;
      all <- get_all_comments ;;
      ret {| post := post_data;
             comments := all;
             total_comments := length all;
             scraped_at := now |}
  end.

(** The dictionary [scrape_submission] returns for a submission whose
    top-level listing loads to [top_level]. *)
Definition scraped (submission : Submission) (top_level : list Comment)
  : Results :=
  let all := flat_map (fun c => flatten c 0) top_level in
  {| post := extract_post_data submission;
     comments := all;
     total_comments := length all;
     scraped_at := now |}.

(** *** Exporters *)

Definition NL : string := Py.chr Py.LF.
Definition DQ : string := Py.chr Py.DQUOTE.

Definition rule (c : string) : string := Py.times c 80.

(** The text transcript, lines 178-213. *)
Definition transcript_comment (comment : CommentData) : string :=
  let indent := Py.times "  " (depth comment) in
  (indent +++ "┌─ [" +++ Py.str_int (score comment) +++ "] u/" +++ author comment)
  +++ (if is_submitter comment then " [OP]" else EmptyString)
  +++ (match distinguished comment with
       | Some d => if Py.truthy d then " [" +++ d +++ "]" else EmptyString
       | None => EmptyString
       end)
  +++ (" (depth: " +++ Py.str_nat (depth comment) +++ ")" +++ NL)
  +++ String.concat EmptyString
        (map (fun line => indent +++ "│  " +++ line +++ NL)
             (Py.split Py.LF (body comment)))
  +++ (indent +++ "│  [ID: " +++ id comment +++ "]" +++ NL)
  +++ (indent +++ "└─" +++ NL +++ NL).

Definition transcript (results : Results) : string :=
  let post := post results in
  (rule "=" +++ NL)
  +++ ("TITLE: " +++ p_title post +++ NL)
  +++ ("AUTHOR: u/" +++ p_author post +++ NL)
  +++ ("SUBREDDIT: r/" +++ p_subreddit post +++ NL)
  +++ ("SCORE: " +++ Py.str_int (p_score post) +++ " ("
         +++ upvoted (p_upvote_ratio post) +++ "% upvoted)" +++ NL)
  +++ ("URL: " +++ p_url post +++ NL)
  +++ ("POSTED: " +++ p_created_datetime post +++ NL)
  +++ ("COMMENTS: " +++ Py.str_int (p_num_comments post) +++ NL)
  +++ ("PERMALINK: https://reddit.com" +++ p_permalink post +++ NL)
  +++ (rule "=" +++ NL +++ NL)
  +++ (if Py.truthy (p_selftext post) then p_selftext post +++ NL +++ NL
       else EmptyString)
  +++ (rule "-" +++ NL)
  +++ ("COMMENTS (" +++ Py.str_nat (length (comments results)) +++ " total)" +++ NL)
  +++ (rule "-" +++ NL +++ NL)
  +++ String.concat EmptyString (map transcript_comment (comments results)).

(** The CSV file, lines 220-225. *)
Definition csv_header : string :=
  "id,author,score,depth,is_submitter,created_datetime,body" +++ NL.

Definition csv_row (c : CommentData) : string :=
  let body := Py.replace Py.LF " " (Py.replace Py.DQUOTE (DQ +++ DQ) (body c)) in
  let author := Py.replace Py.DQUOTE (DQ +++ DQ) (author c) in
  (DQ +++ id c +++ DQ +++ "," +++ DQ +++ author +++ DQ +++ ","
     +++ Py.str_int (score c) +++ "," +++ Py.str_nat (depth c) +++ ",")
  +++ (Py.str_bool (is_submitter c) +++ "," +++ DQ +++ created_datetime c
         +++ DQ +++ "," +++ DQ +++ body +++ DQ +++ NL).

Definition csv (results : Results) : string :=
  csv_header +++ String.concat EmptyString (map csv_row (comments results)).

(** The top comments summary, lines 231-241. *)
Definition sorted_comments (results : Results) : list CommentData :=
  Py.sorted_reverse score (comments results).

Definition summary_entry (entry : nat * CommentData) : string :=
  let (i, comment) := entry in
  (Py.str_nat i +++ ". u/" +++ author comment +++ " (Score: "
     +++ Py.str_int (score comment) +++ ", Depth: "
     +++ Py.str_nat (depth comment) +++ ")" +++ NL)
  +++ ("   " +++ Py.take 500 (body comment) +++ NL)
  +++ ("   https://reddit.com" +++ permalink comment +++ NL)
  +++ (rule "-" +++ NL +++ NL).

Definition summary (results : Results) : string :=
  ("TOP 50 COMMENTS BY SCORE" +++ NL)
  +++ (rule "=" +++ NL +++ NL)
  +++ String.concat EmptyString
        (map summary_entry (Py.enumerate 1 (firstn 50 (sorted_comments results)))).

(** [save_results(results, output_prefix)].  Python hands the dictionary
    over by reference, so the call could change it under its caller; the
    value returned here is the dictionary as the call leaves it.  Every
    statement of the method reads it: [sorted] and the slices build new
    lists, [replace] new strings. *)
Definition save_results (results : Results) (output_prefix : string)
  : M Results :=
  let json_file := output_prefix +++ ".json" in
  write_file json_file (json_dumps results) ;;
  print (NL +++ "✓ Saved complete JSON to: " +++ json_file) ;;
  let txt_file := output_prefix +++ ".txt" in
  write_file txt_file (transcript results) ;;
  print ("✓ Saved readable text to: " +++ txt_file) ;;
  let csv_file := output_prefix +++ ".csv" in
  write_file csv_file (csv results) ;;
  print ("✓ Saved CSV to: " +++ csv_file) ;;
  let summary_file := output_prefix +++ "_top_comments.txt" in
  write_file summary_file (summary results) ;;
  print ("✓ Saved top comments to: " +++ summary_file) ;;
  ret results.

(** *** User filter *)

Definition search_user (results : Results) (username : string)
  : list CommentData :=
  filter (fun c => String.eqb (Py.lower (author c)) (Py.lower username))
         (comments results).

(** *** The program *)

Definition credentials_help : list string :=
  [ "ERROR: You need to fill in your Reddit API credentials!";
    NL +++ "Follow these steps:";
    "1. Go to: https://www.reddit.com/prefs/apps";
    "2. Click 'create another app...' at the bottom";
    "3. Fill in:";
    "   - name: anything (e.g., 'reddit_scraper')";
    "   - Choose 'script'";
    "   - redirect uri: http://localhost:8080";
    "4. Click 'create app'";
    "5. Copy the client_id (string under 'personal use script')";
    "6. Copy the secret";
    "7. Paste them into this script" ].

Definition report_user_comment (entry : nat * CommentData) : M unit :=
  let (i, comment) := entry in
  print (NL +++ "Comment #" +++ Py.str_nat i) ;;
  print ("Score: " +++ Py.str_int (score comment) +++ " | Depth: "
           +++ Py.str_nat (depth comment)) ;;
  print ("Posted: " +++ created_datetime comment) ;;
  print ("Link: https://reddit.com" +++ permalink comment) ;;
  print (NL +++ body comment +++ NL) ;;
  print (rule "-").

(** [main()], with the three credential constants of lines 263-265 as
    arguments: they are what the user of the script fills in. *)
Definition main (CLIENT_ID CLIENT_SECRET USER_AGENT : string) : M unit :=
  let SUBMISSION_ID := "1ptvi51" in
  let OUTPUT_PREFIX := "reddit_complete" in
  if (String.eqb CLIENT_ID "YOUR_CLIENT_ID_HERE"
      || String.eqb CLIENT_SECRET "YOUR_CLIENT_SECRET_HERE")%bool
  then
    for_each credentials_help print ;;
    raise (SystemExit 1)
  else
    print "Initializing Reddit API client..." ;;
    call_api (NewClient CLIENT_ID CLIENT_SECRET USER_AGENT) ;;
    let reddit := praw_Reddit CLIENT_ID CLIENT_SECRET USER_AGENT in
    set_all_comments [] ;;
    set_comment_count 0 ;;
    print "Starting scrape..." ;;
    results <- scrape_submission reddit SUBMISSION_ID ;;
    print (NL +++ "Saving results...") ;;
    results <- save_results results OUTPUT_PREFIX ;;
    print (NL +++ rule "=") ;;
    print "SEARCHING FOR 'boredlibertine'" ;;
    print (rule "=") ;;
    let user_comments := search_user results "boredlibertine" in
    match user_comments with
    | _ :: _ =>
        print (NL +++ "✓ Found " +++ Py.str_nat (length user_comments)
                 +++ " comment(s) by u/boredlibertine:" +++ NL) ;;
        for_each (Py.enumerate 1 user_comments) report_user_comment
    | [] => print (NL +++ "❌ No comments by u/boredlibertine found")
    end ;;
    print (NL +++ rule "=") ;;
    print "COMPLETE!" ;;
    print (rule "=") ;;
    print ("Total comments scraped: " +++ Py.str_nat (total_comments results)) ;;
    print ("Expected comments: " +++ Py.str_int (p_num_comments (post results))) ;;
    if (p_num_comments (post results) <=? Z.of_nat (total_comments results))%Z
    then print "✓ Successfully retrieved ALL comments!"
    else print "Note: Some comments may have been deleted/removed".

(** The exit status of the process for an outcome of [main]: an exit
    request carries its status, an uncaught exception ends the process
    with status 1. *)
Definition exit_status (o : Outcome unit) : Z :=
  match o with
  | Return _ => 0
  | Raise (SystemExit code) => code
  | Raise (Exception _) => 1
  end.

End Scraper.

(** ** Notions the properties are stated with *)

(** [l1] is an ordered subsequence of [l2]. *)
Inductive Subseq {A : Type} : list A -> list A -> Prop :=
| Subseq_nil : Subseq [] []
| Subseq_skip (x : A) (l1 l2 : list A) : Subseq l1 l2 -> Subseq l1 (x :: l2)
| Subseq_keep (x : A) (l1 l2 : list A) : Subseq l1 l2 -> Subseq (x :: l1) (x :: l2).

(** The ids of the comments the API client holds below an entry, loaded
    or behind placeholders, in listing order. *)
Fixpoint entry_ids (e : Entry) : list string :=
  match e with
  | Reply r rs => c_id r :: flat_map entry_ids rs
  | MoreComments children => flat_map entry_ids children
  | MoreFails _ => []
  end.

Definition comment_ids (c : Comment) : list string :=
  c_id (raw c) :: flat_map entry_ids (replies c).

(** [reply] is among the comments that iterating the replies of [parent]
    yields once their placeholders are loaded. *)
Definition is_reply (parent reply : Comment) : Prop :=
  exists listed, load_all (replies parent) = inr listed /\ In reply listed.


(** [s'] continues [s]: what was printed, written and asked of the API
    client in [s] is still there, in front of what came after. *)
Definition continues (s s' : State) : Prop :=
  (exists out, stdout s' = stdout s ++ out) /\
  (exists written, files s' = files s ++ written) /\
  (exists calls, api_calls s' = api_calls s ++ calls).

(** [s'] continues [s] after [n] more comments were visited, with the
    collected comments and the files untouched. *)
Definition visits (n : nat) (s s' : State) : Prop :=
  continues s s' /\
  comment_count s' = comment_count s + n /\
  all_comments s' = all_comments s /\
  files s' = files s.

(** An action only adds to the record of the run. *)
Definition appends {A : Type} (m : M A) : Prop :=
  forall s, continues s (snd (m s)).

(** No character of [s] is a double quote. *)
Fixpoint quote_free (s : string) : bool :=
  match s with
  | EmptyString => true
  | String c s' => negb (Ascii.eqb c Py.DQUOTE) && quote_free s'
  end.

(** [s] holds none of the characters that end an unquoted CSV field or
    open a quoted one. *)
Fixpoint plain (s : string) : bool :=
  match s with
  | EmptyString => true
  | String c s' =>
      negb (Ascii.eqb c Py.DQUOTE) && negb (Ascii.eqb c Py.COMMA)
      && negb (Ascii.eqb c Py.LF) && plain s'
  end.

(** *** A reference CSV reader

    The script only writes CSV.  To state what a reader recovers from the
    file, this is the usual reader of the format (RFC 4180, and the default
    dialect of Python's [csv.reader]): fields are separated by commas and
    records by line feeds; a field that starts with a double quote runs to
    the next double quote that is not doubled, and a doubled double quote
    inside it stands for one. *)
Module Csv.

Inductive Mode : Type :=
| FieldStart
| Unquoted (field : string)
| Quoted (field : string)
| QuoteSeen (field : string).

(** Reads [s] in a given mode, with the records read so far and the
    fields read so far of the record being read. *)
Fixpoint read_from (mode : Mode) (rows : list (list string))
  (fields : list string) (s : string) : list (list string) :=
  match s with
  | EmptyString =>
      match mode with
      | FieldStart =>
          match fields with
          | [] => rows
          | _ => rows ++ [fields ++ [EmptyString]]
          end
      | Unquoted f | Quoted f | QuoteSeen f => rows ++ [fields ++ [f]]
      end
  | String c s' =>
      match mode with
      | FieldStart =>
          if Ascii.eqb c Py.DQUOTE then read_from (Quoted EmptyString) rows fields s'
          else if Ascii.eqb c Py.COMMA then
            read_from FieldStart rows (fields ++ [EmptyString]) s'
          else if Ascii.eqb c Py.LF then
            match fields with
            | [] => read_from FieldStart (rows ++ [[]]) [] s'
            | _ => read_from FieldStart (rows ++ [fields ++ [EmptyString]]) [] s'
            end
          else read_from (Unquoted (Py.chr c)) rows fields s'
      | Unquoted f =>
          if Ascii.eqb c Py.COMMA then read_from FieldStart rows (fields ++ [f]) s'
          else if Ascii.eqb c Py.LF then
            read_from FieldStart (rows ++ [fields ++ [f]]) [] s'
          else read_from (Unquoted (f +++ Py.chr c)) rows fields s'
      | Quoted f =>
          if Ascii.eqb c Py.DQUOTE then read_from (QuoteSeen f) rows fields s'
          else read_from (Quoted (f +++ Py.chr c)) rows fields s'
      | QuoteSeen f =>
          if Ascii.eqb c Py.DQUOTE then
            read_from (Quoted (f +++ Py.chr c)) rows fields s'
          else if Ascii.eqb c Py.COMMA then
            read_from FieldStart rows (fields ++ [f]) s'
          else if Ascii.eqb c Py.LF then
            read_from FieldStart (rows ++ [fields ++ [f]]) [] s'
          else read_from (Unquoted (f +++ Py.chr c)) rows fields s'
      end
  end.

Definition read (s : string) : list (list string) := read_from FieldStart [] [] s.

Definition parse_int (s : string) : option Z :=
  option_map Z.of_int (NilZero.int_of_string s).

Definition parse_nat (s : string) : option nat :=
  match parse_int s with
  | Some z => if (0 <=? z)%Z then Some (Z.to_nat z) else None
  | None => None
  end.

(** The (id, author, score, depth) of a record: its first four fields,
    the last two read as integers. *)
Definition key (row : list string) : option (string * string * Z * nat) :=
  match row with
  | i :: a :: s :: d :: _ =>
      match parse_int s, parse_nat d with
      | Some s', Some d' => Some (i, a, s', d')
      | _, _ => None
      end
  | _ => None
  end.

End Csv.

(** The (id, author, score, depth) of a comment of a [Results]. *)
Definition key_of (c : CommentData) : string * string * Z * nat :=
  (id c, author c, score c, depth c).

(** The fields a reader finds in the record of a comment. *)
Definition csv_fields (c : CommentData) : list string :=
  [ id c; author c; Py.str_int (score c); Py.str_nat (depth c);
    Py.str_bool (is_submitter c); created_datetime c;
    Py.replace Py.LF " " (body c) ].

Definition csv_header_fields : list string :=
  ["id"; "author"; "score"; "depth"; "is_submitter"; "created_datetime"; "body"].


(** *** Sample data *)

Module Sample.

Definition isoformat (t : float) : string := "2025-12-24T10:00:00".
Definition now : string := "2025-12-25T08:30:00".
Definition format_1f (x : float) : string := "75.0".
Definition json_dumps (r : Results) : string := "{}".

Definition comment (i : string) (a : option string) (b : string) (sc : Z)
  : RawComment :=
  {| c_id := i; c_author := a; c_body := b; c_score := sc;
     c_created_utc := 1766570400%float; c_permalink := "/r/test/comments/1ptvi51/_/" +++ i;
     c_parent_id := "t3_1ptvi51"; c_depth := None; c_is_submitter := false;
     c_distinguished := None; c_edited := None; c_controversiality := 0;
     c_gilded := 0 |}.

Definition submission (a : option string) (forest : list Entry) : Submission :=
  {| s_id := "1ptvi51"; s_title := "A thread"; s_author := a; s_score := 10;
     s_upvote_ratio := 0.75%float; s_num_comments := 4;
     s_created_utc := 1766570000%float; s_url := "https://reddit.com/r/test";
     s_selftext := EmptyString; s_permalink := "/r/test/comments/1ptvi51/";
     s_subreddit := "test"; s_link_flair_text := None; s_over_18 := false;
     s_spoiler := false; s_locked := false; s_gilded := 0;
     s_comments := forest |}.

(** One top-level comment with two replies; the first reply has a
    placeholder that loads one more reply. *)
Definition thread : list Entry :=
  [ Reply (comment "top" (Some "alice") "first" 5)
      [ Reply (comment "r1" (Some "Bob") "second" 7)
          [ MoreComments [ Reply (comment "r1a" None "third" 5) [] ] ];
        Reply (comment "r2" (Some "bob") "fourth" 7) [] ] ].



(** A listing in which the API client hands out the same comment twice. *)
Definition repeated : list Entry :=
  [ Reply (comment "top" (Some "alice") "first" 5) [];
    Reply (comment "top" (Some "alice") "first" 5) [] ].

Definition reddit (forest : list Entry) : Reddit :=
  fun _ => inr (submission (Some "carol") forest).

Definition offline : string -> string -> string -> Reddit :=
  fun _ _ _ _ => inl "received 503 HTTP response".

Definition record (i a b : string) (sc : Z) (d : nat) : CommentData :=
  set_depth (extract_comment_data isoformat (comment i (Some a) b sc)) d.

Definition post_data : PostData :=
  extract_post_data isoformat (submission (Some "carol") thread).

(** Bodies and an author with double quotes, commas and line feeds. *)
Definition quoting : Results :=
  {| post := post_data;
     comments :=
       [ record "c1" "alice"
           ("He said " +++ DQ +++ "hi, all" +++ DQ +++ NL +++ "and left") (-3) 0;
         record "c2" ("bob " +++ DQ +++ "the" +++ DQ +++ " builder") EmptyString 12 1;
         record "c3" "carol" (DQ +++ DQ +++ NL +++ NL +++ ",") 0 2 ];
     total_comments := 3;
     scraped_at := now |}.

(** A comment whose id holds a double quote. *)
Definition quoted_id : Results :=
  {| post := post_data;
     comments := [ record ("a" +++ DQ +++ "b") "alice" "plain text" 5 0 ];
     total_comments := 1;
     scraped_at := now |}.

End Sample.

(** ** Notions for the further properties *)







(** How often the character [c] occurs in [s]. *)
Fixpoint count_char (c : ascii) (s : string) : nat :=
  match s with
  | EmptyString => 0
  | String x s' => (if Ascii.eqb x c then 1 else 0) + count_char c s'
  end.


(** [s'] is [s] after [n] more comments were visited: the counter and the
    calls made to the API client. *)
Definition called_per_comment (n : nat) (s s' : State) : Prop :=
  comment_count s' = comment_count s + n /\
  api_calls s' = api_calls s ++ repeat ReplaceMore n /\
  all_comments s' = all_comments s /\
  files s' = files s.



(** * Properties *)

(** ** The API client: loading a listing *)

Lemma load_MoreComments (children : list Entry) :
  load (MoreComments children) = load_all children.
Proof.
  simpl. induction children as [|x l IH]; [reflexivity|].
  simpl. rewrite IH. reflexivity.
Qed.

Section EntryInduction.
Variable P : Entry -> Prop.
Hypothesis HReply : forall r rs, Forall P rs -> P (Reply r rs).
Hypothesis HMore : forall children, Forall P children -> P (MoreComments children).
Hypothesis HFails : forall e, P (MoreFails e).

Lemma Entry_forall_ind : forall e, P e.
Proof.
  fix IH 1. intros [r rs|children|e].
  - apply HReply. induction rs as [|x l IHl]; constructor; [apply IH | exact IHl].
  - apply HMore. induction children as [|x l IHl]; constructor; [apply IH | exact IHl].
  - apply HFails.
Qed.
End EntryInduction.

Lemma load_all_app_inv (l : list Entry) : forall cs,
  load_all l = inr cs ->
  match l with
  | [] => cs = []
  | x :: l' => exists c1 c2, load x = inr c1 /\ load_all l' = inr c2 /\ cs = c1 ++ c2
  end.
Proof.
  destruct l as [|x l']; simpl; intros cs H.
  - congruence.
  - destruct (load x) as [e|c1]; [discriminate|].
    destruct (load_all l') as [e|c2]; [discriminate|].
    exists c1, c2. repeat split; congruence.
Qed.

Lemma load_height : forall e cs,
  load e = inr cs -> Forall (fun c => height c <= nesting e) cs.
Proof.
  induction e as [r rs _|children IH|err] using Entry_forall_ind; intros cs H.
  - simpl in H. injection H as <-. constructor; [|constructor].
    unfold height. simpl. lia.
  - rewrite load_MoreComments in H. simpl nesting.
    revert cs H. induction IH as [|x l Hx _ IHl]; intros cs H.
    + simpl in H. injection H as <-. constructor.
    + apply load_all_app_inv in H. destruct H as (c1 & c2 & H1 & H2 & ->).
      apply Forall_app. split.
      * eapply Forall_impl; [|apply (Hx _ H1)]. simpl. intros; lia.
      * eapply Forall_impl; [|apply (IHl _ H2)]. simpl. intros; lia.
  - discriminate.
Qed.

Lemma load_all_height : forall l cs,
  load_all l = inr cs ->
  Forall (fun c => height c <= list_max (map nesting l)) cs.
Proof.
  intros l cs H. rewrite <- load_MoreComments in H.
  apply load_height in H. exact H.
Qed.

Lemma continues_refl s : continues s s.
Proof. repeat split; exists []; rewrite app_nil_r; reflexivity. Qed.

Lemma continues_trans s1 s2 s3 :
  continues s1 s2 -> continues s2 s3 -> continues s1 s3.
Proof.
  intros ([o1 H1] & [w1 H2] & [c1 H3]) ([o2 H4] & [w2 H5] & [c2 H6]).
  repeat split.
  - exists (o1 ++ o2). rewrite H4, H1, app_assoc. reflexivity.
  - exists (w1 ++ w2). rewrite H5, H2, app_assoc. reflexivity.
  - exists (c1 ++ c2). rewrite H6, H3, app_assoc. reflexivity.
Qed.

Lemma visits_refl s : visits 0 s s.
Proof. split; [apply continues_refl|]. repeat split. lia. Qed.

Lemma visits_trans n m s1 s2 s3 :
  visits n s1 s2 -> visits m s2 s3 -> visits (n + m) s1 s3.
Proof.
  intros (C1 & N1 & A1 & F1) (C2 & N2 & A2 & F2).
  split; [eapply continues_trans; eassumption|].
  repeat split; try congruence. lia.
Qed.

Lemma flat_map_ext_in {A B : Type} (f g : A -> list B) (l : list A) :
  (forall a, In a l -> f a = g a) -> flat_map f l = flat_map g l.
Proof.
  induction l as [|x l IH]; simpl; intros H; [reflexivity|].
  rewrite (H x), IH; auto.
Qed.

Section Flatten.
Variable isoformat : float -> string.

Lemma height_pos (c : Comment) : 1 <= height c.
Proof. unfold height. lia. Qed.

Lemma flatten_upto_enough : forall f1 f2 c d,
  height c <= f1 -> height c <= f2 ->
  flatten_upto isoformat f1 c d = flatten_upto isoformat f2 c d.
Proof.
  induction f1 as [|f1 IH]; intros f2 c d H1 H2.
  - pose proof (height_pos c). lia.
  - destruct f2 as [|f2]; [pose proof (height_pos c); lia|].
    simpl. f_equal.
    destruct (load_all (replies c)) as [e|listed] eqn:L; [reflexivity|].
    apply flat_map_ext_in. intros k Hk.
    apply load_all_height in L. rewrite Forall_forall in L.
    specialize (L k Hk). unfold height in H1, H2.
    apply IH; lia.
Qed.

Lemma flatten_unfold (c : Comment) (d : nat) :
  flatten isoformat c d =
  comment_record isoformat c d ::
  match load_all (replies c) with
  | inl _ => []
  | inr listed => flat_map (fun reply => flatten isoformat reply (d + 1)) listed
  end.
Proof.
  unfold flatten at 1. unfold height at 1. simpl. f_equal.
  destruct (load_all (replies c)) as [e|listed] eqn:L; [reflexivity|].
  apply flat_map_ext_in. intros k Hk.
  apply load_all_height in L. rewrite Forall_forall in L.
  specialize (L k Hk). unfold flatten.
  apply flatten_upto_enough; lia.
Qed.

Lemma process_comment_tree_upto_step f c d s :
  process_comment_tree_upto isoformat (S f) c d s =
  match load_all (replies c) with
  | inl e =>
      (print (warning_message c e) ;; ret [comment_record isoformat c d])
        (after_visit s)
  | inr listed =>
      try_except
        (extend_each (fun reply => process_comment_tree_upto isoformat f reply (d + 1))
           listed [comment_record isoformat c d])
        (fun e => print (warning_message c e)) (after_visit s)
  end.
Proof.
  unfold after_visit.
  cbn [process_comment_tree_upto].
  unfold bind at 1 2 3. cbn [get_comment_count set_comment_count comment_count].
  destruct ((comment_count s + 1) mod 50 =? 0)%nat eqn:E.
  - unfold bind at 1. unfold print_end at 1.
    cbn [comment_count all_comments stdout files api_calls].
    unfold try_except, replace_more, bind, call_api.
    cbn [comment_count all_comments stdout files api_calls].
    destruct (load_all (replies c)); reflexivity.
  - unfold bind at 1. unfold ret at 1.
    unfold try_except, replace_more, bind, call_api.
    cbn [comment_count all_comments stdout files api_calls].
    rewrite app_nil_r. destruct s.
    destruct (load_all (replies c)); reflexivity.
Qed.
End Flatten.

(** ** The flattener returns [flatten] *)

Section Refinement.
Variable isoformat : float -> string.
Variable now : string.
Variable format_1f : float -> string.

Lemma visits_after_visit s : visits 1 s (after_visit s).
Proof.
  unfold after_visit. split; [|repeat split].
  repeat split; cbn [stdout files api_calls]; eexists; try reflexivity.
  rewrite app_nil_r. reflexivity.
Qed.

Lemma visits_print_end s text ending : visits 0 s (snd (print_end text ending s)).
Proof.
  unfold print_end. cbn [snd]. split; [|repeat split; cbn; lia].
  repeat split; cbn [stdout files api_calls];
    first [exists []; rewrite app_nil_r; reflexivity | eexists; reflexivity].
Qed.

Lemma visits_print n s s' text :
  visits n s s' -> visits n s (snd (print text s')).
Proof.
  intros V. rewrite <- (Nat.add_0_r n).
  eapply visits_trans; [exact V|apply visits_print_end].
Qed.

Lemma extend_each_returns (visit : Comment -> M (list CommentData))
  (out : Comment -> list CommentData) (listed : list Comment) :
  (forall reply s, In reply listed ->
     exists s', visit reply s = (Return (out reply), s') /\
                visits (length (out reply)) s s') ->
  forall acc s,
  exists s', extend_each visit listed acc s = (acc ++ flat_map out listed, None, s') /\
             visits (length (flat_map out listed)) s s'.
Proof.
  induction listed as [|k l IH]; intros H acc s.
  - exists s. simpl. rewrite app_nil_r. split; [reflexivity|apply visits_refl].
  - destruct (H k s (or_introl eq_refl)) as (s1 & E1 & V1).
    destruct (IH (fun r s0 Hr => H r s0 (or_intror Hr)) (acc ++ out k) s1)
      as (s2 & E2 & V2).
    exists s2. simpl. rewrite E1, E2, <- app_assoc. split; [reflexivity|].
    rewrite length_app. eapply visits_trans; eassumption.
Qed.

Lemma process_comment_tree_upto_flatten : forall f c d s,
  exists s',
    process_comment_tree_upto isoformat f c d s
      = (Return (flatten_upto isoformat f c d), s') /\
    visits (length (flatten_upto isoformat f c d)) s s'.
Proof.
  induction f as [|f IH]; intros c d s.
  - exists s. split; [reflexivity|apply visits_refl].
  - rewrite process_comment_tree_upto_step. cbn [flatten_upto].
    destruct (load_all (replies c)) as [e|listed].
    + eexists. split; [reflexivity|].
      apply visits_print, visits_after_visit.
    + destruct (extend_each_returns
                  (fun reply => process_comment_tree_upto isoformat f reply (d + 1))
                  (fun reply => flatten_upto isoformat f reply (d + 1)) listed
                  (fun r s0 _ => IH r (d + 1) s0)
                  [comment_record isoformat c d] (after_visit s))
        as (s' & E & V).
      exists s'. unfold try_except. rewrite E. split; [reflexivity|].
      change (length (comment_record isoformat c d :: ?l)) with (1 + length l).
      eapply visits_trans; [apply visits_after_visit|exact V].
Qed.

Lemma process_comment_tree_flatten (c : Comment) (d : nat) (s : State) :
  exists s',
    process_comment_tree isoformat c d s = (Return (flatten isoformat c d), s') /\
    visits (length (flatten isoformat c d)) s s'.
Proof. apply process_comment_tree_upto_flatten. Qed.

Lemma for_each_top_level (tops : list Comment) : forall s,
  exists s',
    for_each tops (fun comment =>
        sub <- process_comment_tree isoformat comment 0 ;;
        acc <- get_all_comments ;;
        set_all_comments (acc ++ sub)) s = (Return tt, s') /\
    continues s s' /\
    comment_count s' =
      comment_count s + length (flat_map (fun c => flatten isoformat c 0) tops) /\
    all_comments s' =
      all_comments s ++ flat_map (fun c => flatten isoformat c 0) tops /\
    files s' = files s.
Proof.
  induction tops as [|c l IH]; intros s.
  - exists s. simpl. rewrite app_nil_r, Nat.add_0_r.
    repeat split; try reflexivity; exists []; rewrite app_nil_r; reflexivity.
  - destruct (process_comment_tree_flatten c 0 s) as (s1 & E1 & (C1 & N1 & A1 & F1)).
    cbn [for_each]. unfold bind at 1 2. rewrite E1.
    unfold bind at 1. cbn [get_all_comments set_all_comments].
    match goal with |- context [for_each l ?b ?st] =>
      destruct (IH st) as (s2 & E2 & C2 & N2 & A2 & F2) end.
    exists s2. rewrite E2.
    cbn [comment_count all_comments stdout files api_calls] in *.
    split; [reflexivity|]. split; [|repeat split].
    + eapply continues_trans; [exact C1|].
      destruct C2 as (O & W & K). cbn [stdout files api_calls] in *.
      repeat split; assumption.
    + rewrite N2, N1. cbn [flat_map]. rewrite length_app. lia.
    + rewrite A2, A1. cbn [flat_map]. rewrite app_assoc. reflexivity.
    + congruence.
Qed.
End Refinement.

(** ** What [scrape_submission] returns *)

Section Scrape.
Variable isoformat : float -> string.
Variable now : string.
Variable format_1f : float -> string.

Lemma scrape_submission_returns reddit sid s submission tops :
  reddit sid = inr submission ->
  load_all (s_comments submission) = inr tops ->
  exists s',
    scrape_submission isoformat now format_1f reddit sid s
      = (Return (scraped isoformat now submission tops), s') /\
    continues s s' /\
    comment_count s' = length (comments (scraped isoformat now submission tops)) /\
    all_comments s' = comments (scraped isoformat now submission tops) /\
    files s' = files s.
Proof.
  intros HR HL. unfold scrape_submission.
  unfold bind at 1 2 3 4 5. cbn [print print_end call_api]. rewrite HR.
  unfold bind at 1 2 3 4 5 6 7 8 9 10. 
  cbn [print print_end call_api set_comment_count set_all_comments
       comment_count all_comments stdout files api_calls].
  unfold replace_more. unfold bind at 1 2. cbn [call_api]. rewrite HL.
  cbn [ret]. unfold bind at 1 2 3. 
  cbn [print print_end comment_count all_comments stdout files api_calls].
  match goal with |- context [for_each tops ?b ?st] =>
    destruct (for_each_top_level isoformat tops st) as (s1 & E & C & N & A & F)
  end.
  rewrite E. unfold bind. 
  cbn [get_all_comments print print_end ret comment_count all_comments stdout
       files api_calls] in *.
  rewrite A. cbn [app].
  eexists. split; [reflexivity|].
  cbn [comment_count all_comments stdout files api_calls scraped comments].
  repeat split.
  - destruct C as ([o H1] & [w H2] & [k H3]). cbn [stdout files api_calls] in *.
    rewrite H1. rewrite <- !app_assoc. eexists; reflexivity.
  - destruct C as ([o H1] & [w H2] & [k H3]). cbn [stdout files api_calls] in *.
    rewrite H2. eexists; reflexivity.
  - destruct C as ([o H1] & [w H2] & [k H3]). cbn [stdout files api_calls] in *.
    rewrite H3. rewrite <- !app_assoc. eexists; reflexivity.
  - rewrite N. reflexivity.
  - exact F.
Qed.

Lemma scrape_submission_inv reddit sid s r s' :
  scrape_submission isoformat now format_1f reddit sid s = (Return r, s') ->
  exists submission tops,
    reddit sid = inr submission /\
    load_all (s_comments submission) = inr tops /\
    r = scraped isoformat now submission tops.
Proof.
  intros H.
  destruct (reddit sid) as [err|submission] eqn:HR.
  - exfalso. revert H. unfold scrape_submission.
    unfold bind at 1 2 3 4 5. cbn [print print_end call_api]. rewrite HR.
    unfold raise. discriminate.
  - destruct (load_all (s_comments submission)) as [err|tops] eqn:HL.
    + exfalso. revert H. unfold scrape_submission.
      unfold bind at 1 2 3 4 5. cbn [print print_end call_api]. rewrite HR.
      unfold bind at 1 2 3 4 5 6 7 8 9 10.
      cbn [print print_end call_api set_comment_count set_all_comments
           comment_count all_comments stdout files api_calls].
      unfold replace_more. unfold bind at 1 2. cbn [call_api]. rewrite HL.
      unfold raise. discriminate.
    + exists submission, tops. split; [reflexivity|]. split; [exact HL|].
      destruct (scrape_submission_returns reddit sid s submission tops HR HL)
        as (s2 & E & _). congruence.
Qed.
End Scrape.

(** ** Ids, parents and warnings *)

Lemma Subseq_nil_l {A : Type} (l : list A) : Subseq [] l.
Proof. induction l; [apply Subseq_nil|apply Subseq_skip; assumption]. Qed.

Lemma Subseq_refl {A : Type} (l : list A) : Subseq l l.
Proof. induction l; [apply Subseq_nil|apply Subseq_keep; assumption]. Qed.

Lemma Subseq_app {A : Type} (l1 l2 m1 m2 : list A) :
  Subseq l1 l2 -> Subseq m1 m2 -> Subseq (l1 ++ m1) (l2 ++ m2).
Proof.
  induction 1; simpl; intros;
    [assumption|apply Subseq_skip; auto|apply Subseq_keep; auto].
Qed.

Lemma Subseq_In {A : Type} (l1 l2 : list A) (x : A) :
  Subseq l1 l2 -> In x l1 -> In x l2.
Proof. induction 1; simpl; intuition. Qed.

Lemma Subseq_NoDup {A : Type} (l1 l2 : list A) :
  Subseq l1 l2 -> NoDup l2 -> NoDup l1.
Proof.
  induction 1; intros N; [constructor| |]; inversion N; subst; auto.
  constructor; auto. intros HI. eapply Subseq_In in HI; eauto.
Qed.

Lemma Subseq_flat_map {A B : Type} (f g : A -> list B) (l : list A) :
  (forall x, In x l -> Subseq (f x) (g x)) ->
  Subseq (flat_map f l) (flat_map g l).
Proof.
  induction l as [|x l IH]; simpl; intros H; [constructor|].
  apply Subseq_app; auto.
Qed.

Lemma map_flat_map {A B C : Type} (g : B -> C) (f : A -> list B) (l : list A) :
  map g (flat_map f l) = flat_map (fun x => map g (f x)) l.
Proof.
  induction l as [|x l IH]; simpl; [reflexivity|].
  rewrite map_app, IH. reflexivity.
Qed.

Lemma load_ids : forall e cs,
  load e = inr cs -> flat_map comment_ids cs = entry_ids e.
Proof.
  induction e as [r rs _|children IH|err] using Entry_forall_ind; intros cs H.
  - simpl in H. injection H as <-. simpl. unfold comment_ids. simpl.
    rewrite app_nil_r. reflexivity.
  - rewrite load_MoreComments in H. simpl entry_ids.
    revert cs H. induction IH as [|x l Hx _ IHl]; intros cs H.
    + simpl in H. injection H as <-. reflexivity.
    + apply load_all_app_inv in H. destruct H as (c1 & c2 & H1 & H2 & ->).
      rewrite flat_map_app. simpl. rewrite (Hx _ H1), (IHl _ H2). reflexivity.
  - discriminate.
Qed.

Lemma load_all_ids (l : list Entry) (cs : list Comment) :
  load_all l = inr cs -> flat_map comment_ids cs = flat_map entry_ids l.
Proof.
  intros H. rewrite <- load_MoreComments in H. apply load_ids in H. exact H.
Qed.

Section Invariants.
Variable isoformat : float -> string.

Lemma id_comment_record c d : id (comment_record isoformat c d) = c_id (raw c).
Proof. reflexivity. Qed.

Lemma depth_comment_record c d : depth (comment_record isoformat c d) = d.
Proof. reflexivity. Qed.

Lemma flatten_upto_ids : forall f c d,
  Subseq (map id (flatten_upto isoformat f c d)) (comment_ids c).
Proof.
  induction f as [|f IH]; intros c d; [apply Subseq_nil_l|].
  cbn [flatten_upto map]. rewrite id_comment_record. unfold comment_ids.
  apply Subseq_keep.
  destruct (load_all (replies c)) as [e|listed] eqn:L; [apply Subseq_nil_l|].
  rewrite <- (load_all_ids _ _ L), map_flat_map.
  apply Subseq_flat_map. intros k _. apply IH.
Qed.

Lemma flatten_forest_ids (l : list Entry) (tops : list Comment) :
  load_all l = inr tops ->
  Subseq (map id (flat_map (fun c => flatten isoformat c 0) tops))
         (flat_map entry_ids l).
Proof.
  intros L. rewrite <- (load_all_ids _ _ L), map_flat_map.
  apply Subseq_flat_map. intros k _. apply flatten_upto_ids.
Qed.

Lemma flatten_upto_parent : forall f c d rec,
  In rec (flatten_upto isoformat f c d) ->
  rec = comment_record isoformat c d \/
  exists p k dp,
    In (comment_record isoformat p dp) (flatten_upto isoformat f c d) /\
    is_reply p k /\ rec = comment_record isoformat k (dp + 1).
Proof.
  induction f as [|f IH]; intros c d rec H; [destruct H|].
  cbn [flatten_upto] in *. destruct H as [H|H]; [left; congruence|]. right.
  destruct (load_all (replies c)) as [e|listed] eqn:L; [destruct H|].
  apply in_flat_map in H. destruct H as (k & Hk & H).
  destruct (IH _ _ _ H) as [->|(p & k' & dp & Hp & Hr & ->)].
  - exists c, k, d. split; [left; reflexivity|].
    split; [exists listed; auto|reflexivity].
  - exists p, k', dp. split; [|auto].
    right. apply in_flat_map. exists k. auto.
Qed.

Lemma head_flatten c d : In (comment_record isoformat c d) (flatten isoformat c d).
Proof. rewrite flatten_unfold. left. reflexivity. Qed.

Lemma extend_each_app (visit : Comment -> M (list CommentData)) l1 l2 acc s :
  extend_each visit (l1 ++ l2) acc s =
  match extend_each visit l1 acc s with
  | (acc', None, s') => extend_each visit l2 acc' s'
  | stopped => stopped
  end.
Proof.
  revert acc s. induction l1 as [|x l1 IH]; intros acc s; [reflexivity|].
  simpl. destruct (visit x s) as [[sub|e] s']; [apply IH|reflexivity].
Qed.

(** The loop of the [try] statement keeps what it has collected when a
    visit raises: the handler runs and the statement yields the comments
    extended so far. *)
Lemma try_except_keeps_visited (visit : Comment -> M (list CommentData))
  (out : Comment -> list CommentData) (before after : list Comment)
  (reply : Comment) (msg : string) (handler : string -> M unit)
  (comments : list CommentData) (s : State) :
  (forall r s0, In r before -> exists s1, visit r s0 = (Return (out r), s1)) ->
  (forall s0, exists s1, visit reply s0 = (Raise (Exception msg), s1)) ->
  (forall s0, exists s1, handler msg s0 = (Return tt, s1)) ->
  fst (try_except (extend_each visit (before ++ reply :: after) comments) handler s)
  = Return (comments ++ flat_map out before).
Proof.
  intros Hb Hr Hh. unfold try_except. rewrite extend_each_app.
  assert (E : exists s1, extend_each visit before comments s
                         = (comments ++ flat_map out before, None, s1)).
  { clear Hr. revert comments s. induction before as [|r l IH]; intros comments s.
    - exists s. simpl. rewrite app_nil_r. reflexivity.
    - destruct (Hb r s (or_introl eq_refl)) as (s1 & E1).
      destruct (IH (fun r0 s0 Hin => Hb r0 s0 (or_intror Hin)) (comments ++ out r) s1)
        as (s2 & E2).
      exists s2. simpl. rewrite E1, E2, <- app_assoc. reflexivity. }
  destruct E as (s1 & E). rewrite E. cbn [extend_each].
  destruct (Hr s1) as (s2 & E2). rewrite E2.
  unfold bind. destruct (Hh s2) as (s3 & E3). rewrite E3. reflexivity.
Qed.


End Invariants.

(** ** The run only adds to its record *)

Create HintDb appends.

Lemma appends_ret {A : Type} (a : A) : appends (ret a).
Proof. intros s. apply continues_refl. Qed.

Lemma appends_raise {A : Type} (e : Exn) : appends (@raise A e).
Proof. intros s. apply continues_refl. Qed.

Lemma appends_bind {A B : Type} (m : M A) (k : A -> M B) :
  appends m -> (forall a, appends (k a)) -> appends (bind m k).
Proof.
  intros Hm Hk s. unfold bind. specialize (Hm s).
  destruct (m s) as [[a|e] s1]; cbn [snd] in *; [|exact Hm].
  eapply continues_trans; [exact Hm|apply Hk].
Qed.

Lemma appends_print_end (text ending : string) : appends (print_end text ending).
Proof. intros s. apply (visits_print_end s text ending). Qed.

Lemma appends_print (text : string) : appends (print text).
Proof. apply appends_print_end. Qed.

Lemma appends_write_file (name content : string) : appends (write_file name content).
Proof.
  intros s. unfold write_file. cbn [snd].
  repeat split; cbn [stdout files api_calls];
    first [exists []; rewrite app_nil_r; reflexivity | eexists; reflexivity].
Qed.

Lemma appends_call_api (c : ApiCall) : appends (call_api c).
Proof.
  intros s. unfold call_api. cbn [snd].
  repeat split; cbn [stdout files api_calls];
    first [exists []; rewrite app_nil_r; reflexivity | eexists; reflexivity].
Qed.

Lemma appends_set_comment_count (n : nat) : appends (set_comment_count n).
Proof.
  intros s. repeat split; cbn; exists []; rewrite app_nil_r; reflexivity.
Qed.

Lemma appends_set_all_comments (l : list CommentData) : appends (set_all_comments l).
Proof.
  intros s. repeat split; cbn; exists []; rewrite app_nil_r; reflexivity.
Qed.

Lemma appends_get_comment_count : appends get_comment_count.
Proof. intros s. apply continues_refl. Qed.

Lemma appends_get_all_comments : appends get_all_comments.
Proof. intros s. apply continues_refl. Qed.

Lemma appends_for_each {A : Type} (l : list A) (body : A -> M unit) :
  (forall x, appends (body x)) -> appends (for_each l body).
Proof.
  intros H. induction l as [|x l IH]; cbn [for_each].
  - apply appends_ret.
  - apply appends_bind; auto.
Qed.

Lemma appends_replace_more (forest : list Entry) : appends (replace_more forest).
Proof.
  unfold replace_more. apply appends_bind; [apply appends_call_api|].
  intros _. destruct (load_all forest); [apply appends_raise|apply appends_ret].
Qed.

#[local] Hint Resolve appends_ret appends_raise appends_print appends_print_end
  appends_write_file appends_call_api appends_set_comment_count
  appends_set_all_comments appends_get_comment_count appends_get_all_comments
  appends_replace_more : appends.

Ltac appends_steps :=
  repeat first
    [ solve [auto with appends]
    | apply appends_bind; [|intros ?]
    | apply appends_for_each; intros ? ].

Section Program.
Variable isoformat : float -> string.
Variable now : string.
Variable format_1f : float -> string.
Variable json_dumps : Results -> string.
Variable praw_Reddit : string -> string -> string -> Reddit.

Lemma appends_process_comment_tree (c : Comment) (d : nat) :
  appends (process_comment_tree isoformat c d).
Proof.
  intros s. destruct (process_comment_tree_flatten isoformat c d s) as (s' & E & V).
  rewrite E. apply V.
Qed.

Lemma appends_scrape_submission (reddit : Reddit) (sid : string) :
  appends (scrape_submission isoformat now format_1f reddit sid).
Proof.
  unfold scrape_submission.
  do 5 (apply appends_bind; [auto with appends|intros _]).
  destruct (reddit sid) as [err|submission]; [apply appends_raise|].
  pose proof appends_process_comment_tree.
  appends_steps.
Qed.

Lemma appends_save_results (results : Results) (prefix : string) :
  appends (save_results format_1f json_dumps results prefix).
Proof. unfold save_results. appends_steps. Qed.

Lemma appends_report_user_comment (entry : nat * CommentData) :
  appends (report_user_comment entry).
Proof. destruct entry. unfold report_user_comment. appends_steps. Qed.

Lemma main_rejects_placeholders (CLIENT_ID CLIENT_SECRET USER_AGENT : string) s :
  CLIENT_ID = "YOUR_CLIENT_ID_HERE" \/ CLIENT_SECRET = "YOUR_CLIENT_SECRET_HERE" ->
  main isoformat now format_1f json_dumps praw_Reddit CLIENT_ID CLIENT_SECRET USER_AGENT s
  = (Raise (SystemExit 1),
     mkState (comment_count s) (all_comments s)
       (stdout s ++ map (fun line => line +++ NL) credentials_help)
       (files s) (api_calls s)).
Proof.
  intros H. unfold main.
  assert (E : (String.eqb CLIENT_ID "YOUR_CLIENT_ID_HERE"
               || String.eqb CLIENT_SECRET "YOUR_CLIENT_SECRET_HERE")%bool = true).
  { apply orb_true_iff. destruct H as [->| ->]; [left|right]; apply String.eqb_refl. }
  rewrite E. cbv iota. unfold credentials_help. destruct s as [cc ac so fi ap].
  cbv [for_each bind print print_end ret raise
       comment_count all_comments stdout files api_calls].
  cbn [map]. rewrite <- !app_assoc. reflexivity.
Qed.

Lemma main_initializes (CLIENT_ID CLIENT_SECRET USER_AGENT : string) s :
  CLIENT_ID <> "YOUR_CLIENT_ID_HERE" ->
  CLIENT_SECRET <> "YOUR_CLIENT_SECRET_HERE" ->
  continues
    (mkState (comment_count s) (all_comments s)
       (stdout s ++ ["Initializing Reddit API client..." +++ NL])
       (files s)
       (api_calls s ++ [NewClient CLIENT_ID CLIENT_SECRET USER_AGENT]))
    (snd (main isoformat now format_1f json_dumps praw_Reddit
            CLIENT_ID CLIENT_SECRET USER_AGENT s)).
Proof.
  intros H1 H2. unfold main.
  apply String.eqb_neq in H1, H2. rewrite H1, H2. cbn [orb]. cbv beta iota zeta.
  unfold bind at 1 2. cbn [print print_end call_api].
  cbn [comment_count all_comments stdout files api_calls].
  match goal with |- continues _ (snd (?f ?x)) =>
    assert (A : appends f); [|exact (A x)]
  end.
  pose proof appends_scrape_submission. pose proof appends_save_results.
  pose proof appends_report_user_comment.
  appends_steps.
  - destruct (search_user _ _); appends_steps.
  - destruct (_ <=? _)%Z; appends_steps.
Qed.
End Program.

(** ** Reading the CSV file back *)

Lemma append_nil_r (s : string) : s +++ EmptyString = s.
Proof. induction s; simpl; congruence. Qed.

Lemma append_assoc (a b c : string) : (a +++ b) +++ c = a +++ b +++ c.
Proof. induction a; simpl; congruence. Qed.

Lemma concat_cons (x : string) (xs : list string) :
  String.concat EmptyString (x :: xs) = x +++ String.concat EmptyString xs.
Proof. destruct xs; simpl; [rewrite append_nil_r|]; reflexivity. Qed.

Lemma replace_same (c : ascii) (new s : string) :
  Py.replace c new (String c s) = new +++ Py.replace c new s.
Proof. cbn [Py.replace]. rewrite Ascii.eqb_refl. reflexivity. Qed.

Lemma replace_other (c old : ascii) (new s : string) :
  Ascii.eqb c old = false ->
  Py.replace old new (String c s) = String c (Py.replace old new s).
Proof. intros H. cbn [Py.replace]. rewrite H. reflexivity. Qed.

Lemma doubled_quote (t : string) :
  (DQ +++ DQ) +++ t = String Py.DQUOTE (String Py.DQUOTE t).
Proof. reflexivity. Qed.

Lemma replace_commute (s : string) :
  Py.replace Py.LF " " (Py.replace Py.DQUOTE (DQ +++ DQ) s)
  = Py.replace Py.DQUOTE (DQ +++ DQ) (Py.replace Py.LF " " s).
Proof.
  induction s as [|c s IH]; [reflexivity|].
  destruct (Ascii.eqb c Py.DQUOTE) eqn:Q.
  - apply Ascii.eqb_eq in Q. subst c.
    rewrite replace_same, doubled_quote.
    rewrite !(replace_other Py.DQUOTE Py.LF) by reflexivity.
    rewrite replace_same, doubled_quote, IH. reflexivity.
  - rewrite (replace_other c Py.DQUOTE) by assumption.
    destruct (Ascii.eqb c Py.LF) eqn:N.
    + apply Ascii.eqb_eq in N. subst c.
      rewrite !replace_same.
      change (" " +++ ?t) with (String Py.SPACE t).
      rewrite (replace_other Py.SPACE Py.DQUOTE) by reflexivity.
      rewrite IH. reflexivity.
    + rewrite !(replace_other c Py.LF) by assumption.
      rewrite (replace_other c Py.DQUOTE) by assumption.
      rewrite IH. reflexivity.
Qed.

Lemma replace_quote_free (s : string) :
  quote_free s = true -> Py.replace Py.DQUOTE (DQ +++ DQ) s = s.
Proof.
  induction s as [|c s IH]; [reflexivity|].
  cbn [quote_free Py.replace]. intros H. apply andb_true_iff in H.
  destruct H as [H1 H2]. apply negb_true_iff in H1. rewrite H1, IH; auto.
Qed.

Lemma read_quoted_content (s : string) : forall f rows fields rest,
  Csv.read_from (Csv.Quoted f) rows fields
    (Py.replace Py.DQUOTE (DQ +++ DQ) s +++ rest)
  = Csv.read_from (Csv.Quoted (f +++ s)) rows fields rest.
Proof.
  induction s as [|c s IH]; intros f rows fields rest.
  - rewrite append_nil_r. reflexivity.
  - cbn [Py.replace]. destruct (Ascii.eqb c Py.DQUOTE) eqn:Q.
    + apply Ascii.eqb_eq in Q. subst c.
      rewrite append_assoc, doubled_quote.
      cbn [Csv.read_from]. rewrite Ascii.eqb_refl, IH, append_assoc.
      reflexivity.
    + cbn [String.append Csv.read_from]. rewrite Q, IH, append_assoc. reflexivity.
Qed.

Lemma read_quoted_field (s rest : string) rows fields :
  Csv.read_from Csv.FieldStart rows fields
    (String Py.DQUOTE
       (Py.replace Py.DQUOTE (DQ +++ DQ) s
          +++ String Py.DQUOTE (String Py.COMMA rest)))
  = Csv.read_from Csv.FieldStart rows (fields ++ [s]) rest.
Proof.
  cbn [Csv.read_from]. rewrite Ascii.eqb_refl, read_quoted_content.
  reflexivity.
Qed.

Lemma read_last_quoted_field (s rest : string) rows fields :
  Csv.read_from Csv.FieldStart rows fields
    (String Py.DQUOTE
       (Py.replace Py.DQUOTE (DQ +++ DQ) s
          +++ String Py.DQUOTE (String Py.LF rest)))
  = Csv.read_from Csv.FieldStart (rows ++ [fields ++ [s]]) [] rest.
Proof.
  cbn [Csv.read_from]. rewrite Ascii.eqb_refl, read_quoted_content.
  reflexivity.
Qed.

Lemma read_verbatim_field (s rest : string) rows fields :
  quote_free s = true ->
  Csv.read_from Csv.FieldStart rows fields
    (String Py.DQUOTE (s +++ String Py.DQUOTE (String Py.COMMA rest)))
  = Csv.read_from Csv.FieldStart rows (fields ++ [s]) rest.
Proof.
  intros H. rewrite <- (replace_quote_free s H) at 1. apply read_quoted_field.
Qed.

Lemma plain_cons (c : ascii) (s : string) :
  plain (String c s) = true ->
  Ascii.eqb c Py.DQUOTE = false /\ Ascii.eqb c Py.COMMA = false /\
  Ascii.eqb c Py.LF = false /\ plain s = true.
Proof.
  cbn [plain]. intros H. apply andb_true_iff in H. destruct H as [H H4].
  apply andb_true_iff in H. destruct H as [H H3].
  apply andb_true_iff in H. destruct H as [H1 H2].
  apply negb_true_iff in H1, H2, H3. auto.
Qed.

Lemma read_unquoted_content (s : string) : forall f rows fields rest,
  plain s = true ->
  Csv.read_from (Csv.Unquoted f) rows fields (s +++ String Py.COMMA rest)
  = Csv.read_from Csv.FieldStart rows (fields ++ [f +++ s]) rest.
Proof.
  induction s as [|c s IH]; intros f rows fields rest H.
  - rewrite append_nil_r. reflexivity.
  - apply plain_cons in H. destruct H as (H1 & H2 & H3 & H4).
    cbn [String.append Csv.read_from]. rewrite H2, H3, IH, append_assoc; auto.
Qed.

Lemma read_unquoted_field (s rest : string) rows fields :
  plain s = true ->
  Csv.read_from Csv.FieldStart rows fields (s +++ String Py.COMMA rest)
  = Csv.read_from Csv.FieldStart rows (fields ++ [s]) rest.
Proof.
  destruct s as [|c s]; intros H; [reflexivity|].
  apply plain_cons in H. destruct H as (H1 & H2 & H3 & H4).
  cbn [String.append Csv.read_from]. rewrite H1, H2, H3.
  apply read_unquoted_content. exact H4.
Qed.

Lemma plain_uint (d : Decimal.uint) : plain (NilEmpty.string_of_uint d) = true.
Proof. induction d; simpl; auto. Qed.

Lemma plain_str_int (z : Z) : plain (Py.str_int z) = true.
Proof.
  unfold Py.str_int. destruct (Z.to_int z) as [d|d]; simpl.
  - destruct d; try reflexivity; apply (plain_uint (_ _)).
  - destruct d; try reflexivity; apply (plain_uint (_ _)).
Qed.

Lemma plain_str_nat (n : nat) : plain (Py.str_nat n) = true.
Proof. apply plain_str_int. Qed.

Lemma plain_str_bool (b : bool) : plain (Py.str_bool b) = true.
Proof. destruct b; reflexivity. Qed.

Lemma parse_int_str_int (z : Z) : Csv.parse_int (Py.str_int z) = Some z.
Proof.
  unfold Csv.parse_int, Py.str_int. rewrite NilZero.isi.
  - simpl. rewrite DecimalZ.of_to. reflexivity.
  - destruct z; simpl; try discriminate.
    intros [= H]. revert H. apply Unsigned.to_uint_nonnil.
  - destruct z; simpl; try discriminate.
    intros [= H]. revert H. apply Unsigned.to_uint_nonnil.
Qed.

Lemma parse_nat_str_nat (n : nat) : Csv.parse_nat (Py.str_nat n) = Some n.
Proof.
  unfold Csv.parse_nat, Py.str_nat. rewrite parse_int_str_int.
  destruct (0 <=? Z.of_nat n)%Z eqn:E.
  - rewrite Nat2Z.id. reflexivity.
  - apply Z.leb_gt in E. lia.
Qed.

Lemma csv_row_chars (c : CommentData) (rest : string) :
  csv_row c +++ rest =
  String Py.DQUOTE (id c +++ String Py.DQUOTE (String Py.COMMA
    (String Py.DQUOTE (Py.replace Py.DQUOTE (DQ +++ DQ) (author c)
       +++ String Py.DQUOTE (String Py.COMMA
    (Py.str_int (score c) +++ String Py.COMMA
    (Py.str_nat (depth c) +++ String Py.COMMA
    (Py.str_bool (is_submitter c) +++ String Py.COMMA
    (String Py.DQUOTE (created_datetime c +++ String Py.DQUOTE (String Py.COMMA
    (String Py.DQUOTE
       (Py.replace Py.DQUOTE (DQ +++ DQ) (Py.replace Py.LF " " (body c))
          +++ String Py.DQUOTE (String Py.LF rest)))))))))))))).
Proof.
  unfold csv_row. rewrite replace_commute. rewrite !append_assoc. reflexivity.
Qed.

Lemma read_csv_row (c : CommentData) (rest : string) rows :
  quote_free (id c) = true ->
  quote_free (created_datetime c) = true ->
  Csv.read_from Csv.FieldStart rows [] (csv_row c +++ rest)
  = Csv.read_from Csv.FieldStart (rows ++ [csv_fields c]) [] rest.
Proof.
  intros Hi Hd. rewrite csv_row_chars.
  rewrite (read_verbatim_field _ _ _ _ Hi).
  rewrite read_quoted_field.
  rewrite (read_unquoted_field _ _ _ _ (plain_str_int _)).
  rewrite (read_unquoted_field _ _ _ _ (plain_str_nat _)).
  rewrite (read_unquoted_field _ _ _ _ (plain_str_bool _)).
  rewrite (read_verbatim_field _ _ _ _ Hd).
  rewrite read_last_quoted_field.
  reflexivity.
Qed.

Lemma read_csv_rows (l : list CommentData) : forall rows,
  Forall (fun c => quote_free (id c) = true /\
                   quote_free (created_datetime c) = true) l ->
  Csv.read_from Csv.FieldStart rows []
    (String.concat EmptyString (map csv_row l))
  = rows ++ map csv_fields l.
Proof.
  induction l as [|c l IH]; intros rows H.
  - simpl. rewrite app_nil_r. reflexivity.
  - inversion H as [|? ? [Hi Hd] Hl]; subst.
    cbn [map]. rewrite concat_cons, (read_csv_row _ _ _ Hi Hd), (IH _ Hl).
    rewrite <- app_assoc. reflexivity.
Qed.

Lemma read_csv_header (rest : string) :
  Csv.read_from Csv.FieldStart [] [] (csv_header +++ rest)
  = Csv.read_from Csv.FieldStart [csv_header_fields] [] rest.
Proof. reflexivity. Qed.

Lemma key_csv_fields (c : CommentData) :
  Csv.key (csv_fields c) = Some (key_of c).
Proof.
  unfold csv_fields, Csv.key. rewrite parse_int_str_int, parse_nat_str_nat.
  reflexivity.
Qed.

Lemma read_csv (results : Results) :
  Forall (fun c => quote_free (id c) = true /\
                   quote_free (created_datetime c) = true) (comments results) ->
  Csv.read (csv results) = csv_header_fields :: map csv_fields (comments results).
Proof.
  intros H. unfold Csv.read, csv. rewrite read_csv_header.
  apply (read_csv_rows _ [csv_header_fields] H).
Qed.

(** ** Sorting, slicing and filtering *)

Section SortedReverse.
Context {A : Type} (key : A -> Z).










End SortedReverse.




Example lower_example : Py.lower "BoredLibertine_99" = "boredlibertine_99".
Proof. reflexivity. Qed.

Lemma Subseq_filter {A : Type} (p : A -> bool) (l : list A) :
  Subseq (filter p l) l.
Proof.
  induction l as [|x l IH]; simpl; [apply Subseq_nil|].
  destruct (p x); [apply Subseq_keep|apply Subseq_skip]; exact IH.
Qed.

Lemma Subseq_into_filter {A : Type} (p : A -> bool) (l1 l2 : list A) :
  Subseq l1 l2 -> Forall (fun x => p x = true) l1 -> Subseq l1 (filter p l2).
Proof.
  induction 1 as [|x l1 l2 S IH|x l1 l2 S IH]; intros F; simpl.
  - apply Subseq_nil.
  - destruct (p x); [apply Subseq_skip|]; auto.
  - inversion F as [|? ? Hx Hl]; subst. rewrite Hx. apply Subseq_keep; auto.
Qed.

Lemma search_user_filter (results : Results) (username : string) (c : CommentData) :
  In c (search_user results username) <->
  In c (comments results) /\ Py.lower (author c) = Py.lower username.
Proof.
  unfold search_user. rewrite filter_In, String.eqb_eq. reflexivity.
Qed.

Section Exporters.
Variable format_1f : float -> string.
Variable json_dumps : Results -> string.

Lemma save_results_run (results : Results) (prefix : string) (s : State) :
  save_results format_1f json_dumps results prefix s =
  (Return results,
   mkState (comment_count s) (all_comments s)
     (stdout s ++
        [ (NL +++ "✓ Saved complete JSON to: " +++ prefix +++ ".json") +++ NL;
          ("✓ Saved readable text to: " +++ prefix +++ ".txt") +++ NL;
          ("✓ Saved CSV to: " +++ prefix +++ ".csv") +++ NL;
          ("✓ Saved top comments to: " +++ prefix +++ "_top_comments.txt") +++ NL ])
     (files s ++
        [ (prefix +++ ".json", json_dumps results);
          (prefix +++ ".txt", transcript format_1f results);
          (prefix +++ ".csv", csv results);
          (prefix +++ "_top_comments.txt", summary results) ])
     (api_calls s)).
Proof.
  destruct s as [cc ac so fi ap].
  cbv [save_results bind write_file print print_end ret
       comment_count all_comments stdout files api_calls].
  rewrite <- !app_assoc. reflexivity.
Qed.
End Exporters.

(** ** A failure below a comment *)

Section Failure.
Variable isoformat : float -> string.
Variable now : string.
Variable format_1f : float -> string.
Variable json_dumps : Results -> string.
Variable praw_Reddit : string -> string -> string -> Reddit.






End Failure.

(** ** The properties of the specification *)

Section Claims.
Variable isoformat : float -> string.
Variable now : string.
Variable format_1f : float -> string.
Variable json_dumps : Results -> string.
Variable praw_Reddit : string -> string -> string -> Reddit.

(** C1.  A thread with one top-level comment that has two replies, the
    first of which carries a continuation placeholder that loads one more
    reply: [process_comment_tree], applied to the top-level comment at
    depth 0, returns exactly four records, in the order top, reply 1,
    reply 1.1, reply 2, with depths 0, 1, 2, 1 -- each node before its
    children, children in listing order, one level below their parent --
    whatever the attributes of the four comments and the state of the run. *)
Theorem process_comment_tree_scenario
  (top reply1 reply1_1 reply2 : RawComment) (s : State) :
  exists s',
    process_comment_tree isoformat
      (mkComment top
         [ Reply reply1 [ MoreComments [ Reply reply1_1 [] ] ];
           Reply reply2 [] ]) 0 s
    = (Return [ set_depth (extract_comment_data isoformat top) 0;
                set_depth (extract_comment_data isoformat reply1) 1;
                set_depth (extract_comment_data isoformat reply1_1) 2;
                set_depth (extract_comment_data isoformat reply2) 1 ], s') /\
    map depth [ set_depth (extract_comment_data isoformat top) 0;
                set_depth (extract_comment_data isoformat reply1) 1;
                set_depth (extract_comment_data isoformat reply1_1) 2;
                set_depth (extract_comment_data isoformat reply2) 1 ]
    = [0; 1; 2; 1] /\
    comment_count s' = comment_count s + 4.
Proof.
  destruct (process_comment_tree_flatten isoformat
              (mkComment top
                 [ Reply reply1 [ MoreComments [ Reply reply1_1 [] ] ];
                   Reply reply2 [] ]) 0 s) as (s' & E & V).
  exists s'. split; [exact E|]. split; [reflexivity|]. apply V.
Qed.

(** C2, as amended.  Whenever [scrape_submission] returns, the comment
    sequence has one record per comment visited (its length is the visit
    counter of the scraper); every record is either that of a top-level
    comment, at depth 0, or that of a reply to a comment whose own record is
    in the sequence, one level below it; and when the ids the API client
    hands out are pairwise distinct, no id occurs twice in the sequence, so
    that its length is the number of distinct comment ids visited.  The
    scraper itself removes no duplicate. *)
Theorem scrape_submission_invariant (reddit : Reddit) (sid : string)
  (s s' : State) (r : Results) :
  scrape_submission isoformat now format_1f reddit sid s = (Return r, s') ->
  exists submission top_level,
    reddit sid = inr submission /\
    load_all (s_comments submission) = inr top_level /\
    length (comments r) = comment_count s' /\
    (NoDup (flat_map entry_ids (s_comments submission)) ->
       NoDup (map id (comments r)) /\
       length (comments r) = length (nodup string_dec (map id (comments r)))) /\
    Forall (fun c =>
              (exists t, In t top_level /\
                         c = comment_record isoformat t 0 /\ depth c = 0) \/
              (exists parent p k,
                  In parent (comments r) /\
                  parent = comment_record isoformat p (depth parent) /\
                  is_reply p k /\
                  c = comment_record isoformat k (depth parent + 1) /\
                  depth c = depth parent + 1))
           (comments r).
Proof.
  intros H.
  destruct (scrape_submission_inv isoformat now format_1f _ _ _ _ _ H)
    as (submission & tops & HR & HL & ->).
  destruct (scrape_submission_returns isoformat now format_1f reddit sid s
              submission tops HR HL) as (s2 & E & _ & N & _).
  rewrite E in H. injection H as <-.
  exists submission, tops. split; [exact HR|]. split; [exact HL|].
  split; [symmetry; exact N|]. split.
  - intros ND.
    assert (ND' : NoDup (map id (comments (scraped isoformat now submission tops)))).
    { eapply Subseq_NoDup; [|exact ND]. apply flatten_forest_ids. exact HL. }
    split; [exact ND'|]. rewrite (nodup_fixed_point string_dec ND').
    rewrite length_map. reflexivity.
  - apply Forall_forall. intros c Hc. cbn [scraped comments] in *.
    apply in_flat_map in Hc. destruct Hc as (t & Ht & Hc).
    destruct (flatten_upto_parent isoformat _ _ _ _ Hc)
      as [->|(p & k & dp & Hp & Hr & ->)].
    + left. exists t. auto.
    + right. exists (comment_record isoformat p dp), p, k.
      split; [apply in_flat_map; exists t; auto|].
      repeat split; auto.
Qed.


(** C4, as amended.  For every [Results] whose comment ids and
    [created_datetime] strings hold no double quote (the script writes both
    between quotes without escaping them), whatever the bodies and authors
    are, reading the CSV file back gives the header record and then one
    record per comment, in order, whose first four fields are the id, the
    author, the score and the depth of that comment, and whose last field is
    the body with its line feeds replaced by spaces. *)
Theorem csv_round_trip (results : Results) :
  Forall (fun c => quote_free (id c) = true /\
                   quote_free (created_datetime c) = true) (comments results) ->
  exists rows,
    Csv.read (csv results) = csv_header_fields :: rows /\
    rows = map csv_fields (comments results) /\
    map Csv.key rows = map (fun c => Some (key_of c)) (comments results).
Proof.
  intros H. exists (map csv_fields (comments results)).
  split; [apply read_csv; exact H|]. split; [reflexivity|].
  rewrite map_map. apply map_ext. apply key_csv_fields.
Qed.


(** C6.  [search_user] returns the ordered subsequence of the comments
    whose author, lower-cased, equals the name lower-cased: it is a
    subsequence of the comments, it holds exactly the matching comments, every
    subsequence of matching comments is a subsequence of it, and it is the
    empty list, no error, when no author matches. *)
Theorem search_user_spec (results : Results) (username : string) :
  Subseq (search_user results username) (comments results) /\
  (forall c, In c (search_user results username) <->
             In c (comments results) /\ Py.lower (author c) = Py.lower username) /\
  (forall l, Subseq l (comments results) ->
             Forall (fun c => Py.lower (author c) = Py.lower username) l ->
             Subseq l (search_user results username)) /\
  ((forall c, In c (comments results) -> Py.lower (author c) <> Py.lower username) ->
   search_user results username = []).
Proof.
  split; [apply Subseq_filter|]. split; [apply search_user_filter|]. split.
  - intros l S F. apply Subseq_into_filter; [exact S|].
    eapply Forall_impl; [|exact F]. intros c Hc. apply String.eqb_eq. exact Hc.
  - intros H. destruct (search_user results username) as [|c l] eqn:E; [reflexivity|].
    assert (Hc : In c (search_user results username)) by (rewrite E; left; reflexivity).
    apply search_user_filter in Hc. destruct Hc as [Hin Heq].
    destruct (H c Hin Heq).
Qed.

(** C7.  For a comment object without author, [extract_comment_data]
    returns a record whose author is the fixed string ["[deleted]"], and the
    flattener goes on with that record; for a submission without author the
    post record built by [scrape_submission] holds the same string.  Both
    extractors are total functions of the object they read and act on
    nothing else. *)
Theorem missing_author_placeholder :
  (forall comment : RawComment, c_author comment = None ->
     author (extract_comment_data isoformat comment) = "[deleted]" /\
     forall replies d s, exists rest s',
       process_comment_tree isoformat (mkComment comment replies) d s
         = (Return (set_depth (extract_comment_data isoformat comment) d :: rest), s') /\
       author (set_depth (extract_comment_data isoformat comment) d) = "[deleted]") /\
  (forall submission : Submission, s_author submission = None ->
     p_author (extract_post_data isoformat submission) = "[deleted]" /\
     forall reddit sid s r s',
       reddit sid = inr submission ->
       scrape_submission isoformat now format_1f reddit sid s = (Return r, s') ->
       p_author (post r) = "[deleted]").
Proof.
  split.
  - intros comment H.
    assert (A : author (extract_comment_data isoformat comment) = "[deleted]").
    { unfold extract_comment_data. cbn [author]. rewrite H. reflexivity. }
    split; [exact A|]. intros replies d s.
    destruct (process_comment_tree_flatten isoformat (mkComment comment replies) d s)
      as (s' & E & _).
    rewrite flatten_unfold in E. eexists. exists s'. split; [exact E|exact A].
  - intros submission H.
    assert (A : p_author (extract_post_data isoformat submission) = "[deleted]").
    { unfold extract_post_data. cbn [p_author]. rewrite H. reflexivity. }
    split; [exact A|]. intros reddit sid s r s' HR E.
    destruct (scrape_submission_inv isoformat now format_1f _ _ _ _ _ E)
      as (submission' & tops & HR' & _ & ->).
    rewrite HR in HR'. injection HR' as <-. exact A.
Qed.

(** C8, as amended.  When the client id or the client secret still is the
    placeholder of the script, [main] prints the instructions and exits with
    status 1, having called the API client not once and written no file.
    Otherwise -- also when a credential is empty, or the user agent is the
    unchanged default, which [main] does not look at -- it prints that it
    initializes the API client and creates it with the three strings. *)
Theorem main_validates_credentials
  (CLIENT_ID CLIENT_SECRET USER_AGENT : string) (s : State) :
  (CLIENT_ID = "YOUR_CLIENT_ID_HERE" \/ CLIENT_SECRET = "YOUR_CLIENT_SECRET_HERE" ->
   exists s',
     main isoformat now format_1f json_dumps praw_Reddit
       CLIENT_ID CLIENT_SECRET USER_AGENT s = (Raise (SystemExit 1), s') /\
     exit_status (Raise (SystemExit 1)) = 1%Z /\
     stdout s' = stdout s ++ map (fun line => line +++ NL) credentials_help /\
     api_calls s' = api_calls s /\
     files s' = files s) /\
  (CLIENT_ID <> "YOUR_CLIENT_ID_HERE" ->
   CLIENT_SECRET <> "YOUR_CLIENT_SECRET_HERE" ->
   exists outcome s' out calls,
     main isoformat now format_1f json_dumps praw_Reddit
       CLIENT_ID CLIENT_SECRET USER_AGENT s = (outcome, s') /\
     stdout s' = stdout s ++ ("Initializing Reddit API client..." +++ NL) :: out /\
     api_calls s' = api_calls s ++ NewClient CLIENT_ID CLIENT_SECRET USER_AGENT :: calls).
Proof.
  split.
  - intros H.
    rewrite (main_rejects_placeholders isoformat now format_1f json_dumps
               praw_Reddit CLIENT_ID CLIENT_SECRET USER_AGENT s H).
    eexists. split; [reflexivity|]. repeat split.
  - intros H1 H2.
    pose proof (main_initializes isoformat now format_1f json_dumps praw_Reddit
                  CLIENT_ID CLIENT_SECRET USER_AGENT s H1 H2) as C.
    destruct (main isoformat now format_1f json_dumps praw_Reddit
                CLIENT_ID CLIENT_SECRET USER_AGENT s) as [outcome s'].
    destruct C as ([o Ho] & _ & [k Hk]). cbn [snd stdout api_calls] in Ho, Hk.
    exists outcome, s', o, k. split; [reflexivity|].
    rewrite Ho, Hk, <- !app_assoc. split; reflexivity.
Qed.


(** C10.  In every [Results] that [scrape_submission] returns,
    [total_comments] is the length of [comments], whatever number of
    comments the post record reports. *)
Theorem total_comments_is_length (reddit : Reddit) (sid : string)
  (s s' : State) (r : Results) :
  scrape_submission isoformat now format_1f reddit sid s = (Return r, s') ->
  total_comments r = length (comments r).
Proof.
  intros H.
  destruct (scrape_submission_inv isoformat now format_1f _ _ _ _ _ H)
    as (submission & tops & _ & _ & ->).
  reflexivity.
Qed.
End Claims.

(** ** The properties on sample data *)

(** The invariant on the sample thread. *)
Lemma scrape_submission_invariant_witness :
  exists r s',
    scrape_submission Sample.isoformat Sample.now Sample.format_1f
      (Sample.reddit Sample.thread) "1ptvi51" initial_state = (Return r, s') /\
    map (fun c => (id c, depth c)) (comments r)
      = [("top", 0); ("r1", 1); ("r1a", 2); ("r2", 1)] /\
    NoDup (map id (comments r)) /\
    length (comments r) = comment_count s'.
Proof.
  destruct (scrape_submission_returns Sample.isoformat Sample.now Sample.format_1f
              (Sample.reddit Sample.thread) "1ptvi51" initial_state
              _ _ eq_refl eq_refl) as (s' & E & _).
  eexists. exists s'. split; [exact E|]. split; [reflexivity|].
  destruct (scrape_submission_invariant Sample.isoformat Sample.now Sample.format_1f
              _ _ _ _ _ E) as (submission & tops & HR & HL & N & D & _).
  injection HR as <-. split; [|exact N].
  apply D. repeat constructor; simpl; intuition discriminate.
Defined.

(** A listing that holds the same comment twice is flattened to two records
    with the same id. *)
Lemma repeated_comment_counterexample :
  exists r s',
    scrape_submission Sample.isoformat Sample.now Sample.format_1f
      (Sample.reddit Sample.repeated) "1ptvi51" initial_state = (Return r, s') /\
    map id (comments r) = ["top"; "top"] /\
    length (comments r) = 2 /\
    length (nodup string_dec (map id (comments r))) = 1 /\
    ~ NoDup (map id (comments r)).
Proof.
  destruct (scrape_submission_returns Sample.isoformat Sample.now Sample.format_1f
              (Sample.reddit Sample.repeated) "1ptvi51" initial_state
              _ _ eq_refl eq_refl) as (s' & E & _).
  eexists. exists s'. split; [exact E|].
  split; [reflexivity|]. split; [reflexivity|]. split; [reflexivity|].
  intros H. inversion H as [|? ? Hn _]. apply Hn. left. reflexivity.
Qed.



(** Bodies and an author with double quotes, commas and line feeds. *)
Lemma csv_round_trip_witness :
  Forall (fun c => quote_free (id c) = true /\
                   quote_free (created_datetime c) = true)
         (comments Sample.quoting) /\
  map Csv.key (tl (Csv.read (csv Sample.quoting)))
    = [ Some ("c1", "alice", (-3)%Z, 0);
        Some ("c2", "bob " +++ DQ +++ "the" +++ DQ +++ " builder", 12%Z, 1);
        Some ("c3", "carol", 0%Z, 2) ].
Proof.
  assert (F : Forall (fun c => quote_free (id c) = true /\
                               quote_free (created_datetime c) = true)
                (comments Sample.quoting))
    by (repeat constructor).
  split; [exact F|].
  destruct (csv_round_trip Sample.quoting F) as (rows & R & _ & K).
  rewrite R. cbn [tl]. rewrite K. reflexivity.
Defined.

(** An id with a double quote is not recovered. *)
Lemma quoted_id_counterexample :
  map (fun c => String.length (body c)) (comments Sample.quoted_id) = [10] /\
  map (fun c => Some (key_of c)) (comments Sample.quoted_id)
    = [ Some ("a" +++ DQ +++ "b", "alice", 5%Z, 0) ] /\
  map Csv.key (tl (Csv.read (csv Sample.quoted_id)))
    = [ Some ("ab" +++ DQ, "alice", 5%Z, 0) ] /\
  map Csv.key (tl (Csv.read (csv Sample.quoted_id)))
    <> map (fun c => Some (key_of c)) (comments Sample.quoted_id).
Proof.
  split; [reflexivity|]. split; [reflexivity|]. split; [reflexivity|].
  vm_compute. discriminate.
Qed.

(** A match in another case, and no match. *)
Lemma search_user_spec_witness :
  search_user Sample.quoting "ALICE"
    = [ Sample.record "c1" "alice"
          ("He said " +++ DQ +++ "hi, all" +++ DQ +++ NL +++ "and left") (-3) 0 ] /\
  search_user Sample.quoting "boredlibertine" = [].
Proof.
  destruct (search_user_spec Sample.quoting "boredlibertine") as (_ & _ & _ & E).
  split; [reflexivity|].
  apply E. intros c [<-|[<-|[<-|[]]]]; discriminate.
Defined.

(** A deleted comment author and a deleted post author. *)
Lemma missing_author_placeholder_witness :
  c_author (Sample.comment "r1a" None "third" 5) = None /\
  author (extract_comment_data Sample.isoformat (Sample.comment "r1a" None "third" 5))
    = "[deleted]" /\
  s_author (Sample.submission None Sample.thread) = None /\
  p_author (extract_post_data Sample.isoformat (Sample.submission None Sample.thread))
    = "[deleted]".
Proof.
  destruct (missing_author_placeholder Sample.isoformat Sample.now Sample.format_1f)
    as (A & B).
  split; [reflexivity|].
  split; [apply (A (Sample.comment "r1a" None "third" 5) eq_refl)|].
  split; [reflexivity|].
  apply (B (Sample.submission None Sample.thread) eq_refl).
Defined.

(** The placeholder client id, and credentials that were filled in. *)
Lemma main_validates_credentials_witness :
  fst (main Sample.isoformat Sample.now Sample.format_1f Sample.json_dumps
         Sample.offline "YOUR_CLIENT_ID_HERE" "s3cret" "script:v1 (by /u/me)"
         initial_state) = Raise (SystemExit 1) /\
  api_calls (snd (main Sample.isoformat Sample.now Sample.format_1f
                    Sample.json_dumps Sample.offline "YOUR_CLIENT_ID_HERE"
                    "s3cret" "script:v1 (by /u/me)" initial_state)) = [] /\
  exists out calls,
    api_calls (snd (main Sample.isoformat Sample.now Sample.format_1f
                      Sample.json_dumps Sample.offline "abc" "s3cret"
                      "script:v1 (by /u/me)" initial_state))
      = NewClient "abc" "s3cret" "script:v1 (by /u/me)" :: calls /\
    stdout (snd (main Sample.isoformat Sample.now Sample.format_1f
                   Sample.json_dumps Sample.offline "abc" "s3cret"
                   "script:v1 (by /u/me)" initial_state))
      = ("Initializing Reddit API client..." +++ NL) :: out.
Proof.
  destruct (main_validates_credentials Sample.isoformat Sample.now
              Sample.format_1f Sample.json_dumps Sample.offline
              "YOUR_CLIENT_ID_HERE" "s3cret" "script:v1 (by /u/me)" initial_state)
    as (A & _).
  destruct (A (or_introl eq_refl)) as (s' & E & _ & _ & C & _).
  rewrite E. split; [reflexivity|]. split; [exact C|].
  destruct (main_validates_credentials Sample.isoformat Sample.now
              Sample.format_1f Sample.json_dumps Sample.offline
              "abc" "s3cret" "script:v1 (by /u/me)" initial_state)
    as (_ & B).
  destruct B as (o & s2 & out & calls & E2 & O & C2);
    [discriminate|discriminate|].
  rewrite E2. exists out, calls. split; [exact C2|exact O].
Defined.

(** With the default user agent, or with three empty strings, [main] creates
    the client and asks for the submission. *)
Lemma unchecked_credentials_counterexample :
  api_calls (snd (main Sample.isoformat Sample.now Sample.format_1f
                    Sample.json_dumps Sample.offline "my_client_id"
                    "my_client_secret"
                    "python:reddit_scraper:v1.0 (by /u/YOUR_USERNAME)"
                    initial_state))
    = [ NewClient "my_client_id" "my_client_secret"
          "python:reddit_scraper:v1.0 (by /u/YOUR_USERNAME)";
        GetSubmission "1ptvi51" ] /\
  fst (main Sample.isoformat Sample.now Sample.format_1f Sample.json_dumps
         Sample.offline "my_client_id" "my_client_secret"
         "python:reddit_scraper:v1.0 (by /u/YOUR_USERNAME)" initial_state)
    = Raise (Exception "received 503 HTTP response") /\
  api_calls (snd (main Sample.isoformat Sample.now Sample.format_1f
                    Sample.json_dumps Sample.offline EmptyString EmptyString
                    EmptyString initial_state))
    = [ NewClient EmptyString EmptyString EmptyString; GetSubmission "1ptvi51" ].
Proof. repeat split. Qed.

(** The count of the sample thread. *)
Lemma total_comments_is_length_witness :
  exists r s',
    scrape_submission Sample.isoformat Sample.now Sample.format_1f
      (Sample.reddit Sample.thread) "1ptvi51" initial_state = (Return r, s') /\
    total_comments r = length (comments r) /\
    total_comments r = 4.
Proof.
  destruct (scrape_submission_returns Sample.isoformat Sample.now Sample.format_1f
              (Sample.reddit Sample.thread) "1ptvi51" initial_state
              _ _ eq_refl eq_refl) as (s' & E & _).
  eexists. exists s'. split; [exact E|].
  split; [|reflexivity].
  exact (total_comments_is_length Sample.isoformat Sample.now Sample.format_1f
           _ _ _ _ _ E).
Defined.

(** * Further properties *)

(** ** Visits, calls and progress lines *)

Lemma extend_each_invariant (R : nat -> State -> State -> Prop)
  (visit : Comment -> M (list CommentData))
  (out : Comment -> list CommentData) (listed : list Comment) :
  (forall s, R 0 s s) ->
  (forall n m s1 s2 s3, R n s1 s2 -> R m s2 s3 -> R (n + m) s1 s3) ->
  (forall reply s, In reply listed ->
     exists s', visit reply s = (Return (out reply), s') /\
                R (length (out reply)) s s') ->
  forall acc s,
  exists s', extend_each visit listed acc s = (acc ++ flat_map out listed, None, s') /\
             R (length (flat_map out listed)) s s'.
Proof.
  intros R0 Rt. induction listed as [|k l IH]; intros H acc s.
  - exists s. simpl. rewrite app_nil_r. split; [reflexivity|apply R0].
  - destruct (H k s (or_introl eq_refl)) as (s1 & E1 & V1).
    destruct (IH (fun r s0 Hr => H r s0 (or_intror Hr)) (acc ++ out k) s1)
      as (s2 & E2 & V2).
    exists s2. simpl. rewrite E1, E2, <- app_assoc. split; [reflexivity|].
    rewrite length_app. eapply Rt; eassumption.
Qed.



Lemma repeat_add {A : Type} (x : A) (n m : nat) :
  repeat x (n + m) = repeat x n ++ repeat x m.
Proof. apply repeat_app. Qed.



Lemma called_per_comment_refl s : called_per_comment 0 s s.
Proof. unfold called_per_comment. cbn. rewrite app_nil_r. repeat split. lia. Qed.

Lemma called_per_comment_trans n m s1 s2 s3 :
  called_per_comment n s1 s2 -> called_per_comment m s2 s3 ->
  called_per_comment (n + m) s1 s3.
Proof.
  intros (N1 & C1 & A1 & F1) (N2 & C2 & A2 & F2).
  unfold called_per_comment. rewrite repeat_add.
  rewrite N2, C2, A2, F2, N1, C1, A1, F1, <- !app_assoc.
  repeat split. lia.
Qed.

Section Visits.
Variable isoformat : float -> string.

Lemma process_comment_tree_upto_calls : forall f c d s,
  exists s',
    process_comment_tree_upto isoformat f c d s
      = (Return (flatten_upto isoformat f c d), s') /\
    called_per_comment (length (flatten_upto isoformat f c d)) s s'.
Proof.
  induction f as [|f IH]; intros c d s.
  - exists s. split; [reflexivity|apply called_per_comment_refl].
  - rewrite process_comment_tree_upto_step. cbn [flatten_upto].
    destruct (load_all (replies c)) as [e|listed].
    + eexists. split; [reflexivity|].
      unfold called_per_comment, after_visit, bind, print, print_end, ret.
      cbn. repeat split.
    + destruct (extend_each_invariant called_per_comment
                  (fun reply => process_comment_tree_upto isoformat f reply (d + 1))
                  (fun reply => flatten_upto isoformat f reply (d + 1)) listed
                  called_per_comment_refl called_per_comment_trans
                  (fun r s0 _ => IH r (d + 1) s0)
                  [comment_record isoformat c d] (after_visit s))
        as (s' & E & V).
      exists s'. unfold try_except. rewrite E. split; [reflexivity|].
      change (length (comment_record isoformat c d :: ?l)) with (1 + length l).
      eapply called_per_comment_trans; [|exact V].
      unfold called_per_comment, after_visit. cbn. repeat split.
Qed.


End Visits.

(** ** The depths of a flattening *)


Section DepthProfile.
Variable isoformat : float -> string.


End DepthProfile.

(** ** Errors of the fetch *)

Section FetchErrors.
Variable isoformat : float -> string.
Variable now : string.
Variable format_1f : float -> string.

Lemma scrape_submission_fetch_raises reddit sid s err :
  reddit sid = inl err ->
  scrape_submission isoformat now format_1f reddit sid s =
  (Raise (Exception err),
   mkState (comment_count s) (all_comments s)
     (stdout s ++
        [ Py.times "=" 80 +++ NL; "Reddit Thread Scraper (PRAW)" +++ NL;
          Py.times "=" 80 +++ NL;
          (NL +++ "Fetching submission: " +++ sid) +++ NL ])
     (files s) (api_calls s ++ [GetSubmission sid])).
Proof.
  intros HR. unfold scrape_submission.
  unfold bind at 1 2 3 4 5. cbn [print print_end call_api]. rewrite HR.
  unfold raise. cbn [comment_count all_comments stdout files api_calls].
  rewrite <- !app_assoc. reflexivity.
Qed.

Lemma scrape_submission_load_raises reddit sid s submission err :
  reddit sid = inr submission ->
  load_all (s_comments submission) = inl err ->
  exists out,
    scrape_submission isoformat now format_1f reddit sid s =
    (Raise (Exception err),
     mkState 0 [] (stdout s ++ out) (files s)
       (api_calls s ++ [GetSubmission sid; ReplaceMore])).
Proof.
  intros HR HL. unfold scrape_submission.
  unfold bind at 1 2 3 4 5. cbn [print print_end call_api]. rewrite HR.
  unfold bind at 1 2 3 4 5 6 7 8 9 10.
  cbn [print print_end call_api set_comment_count set_all_comments
       comment_count all_comments stdout files api_calls].
  unfold replace_more. unfold bind at 1 2. cbn [call_api]. rewrite HL.
  unfold raise. cbn [comment_count all_comments stdout files api_calls].
  rewrite <- !app_assoc. eexists. reflexivity.
Qed.
End FetchErrors.

(** ** Printing, and the calls of a scrape *)








Section ApiCalls.
Variable isoformat : float -> string.
Variable now : string.
Variable format_1f : float -> string.


End ApiCalls.

(** ** Runs of the program *)

Section Runs.
Variable isoformat : float -> string.
Variable now : string.
Variable format_1f : float -> string.
Variable json_dumps : Results -> string.
Variable praw_Reddit : string -> string -> string -> Reddit.


Lemma main_stops_at_scrape_error (CLIENT_ID CLIENT_SECRET USER_AGENT : string)
  (s : State) (err : string) :
  CLIENT_ID <> "YOUR_CLIENT_ID_HERE" ->
  CLIENT_SECRET <> "YOUR_CLIENT_SECRET_HERE" ->
  praw_Reddit CLIENT_ID CLIENT_SECRET USER_AGENT "1ptvi51" = inl err \/
  (exists submission,
      praw_Reddit CLIENT_ID CLIENT_SECRET USER_AGENT "1ptvi51" = inr submission /\
      load_all (s_comments submission) = inl err) ->
  exists s',
    main isoformat now format_1f json_dumps praw_Reddit
      CLIENT_ID CLIENT_SECRET USER_AGENT s = (Raise (Exception err), s') /\
    files s' = files s.
Proof.
  intros H1 H2 H. unfold main.
  apply String.eqb_neq in H1, H2. rewrite H1, H2. cbn [orb]. cbv beta iota zeta.
  unfold bind at 1 2 3 4 5.
  cbn [print print_end call_api set_all_comments set_comment_count
       comment_count all_comments stdout files api_calls].
  unfold bind at 1.
  destruct H as [HR|(submission & HR & HL)].
  - rewrite (scrape_submission_fetch_raises isoformat now format_1f _ _ _ _ HR).
    eexists. split; reflexivity.
  - match goal with |- context [scrape_submission _ _ _ ?rd ?sid ?st] =>
      destruct (scrape_submission_load_raises isoformat now format_1f rd sid st
                  submission err HR HL) as (out & E)
    end.
    rewrite E. eexists. split; reflexivity.
Qed.
End Runs.

(** ** Scores, names and time stamps *)


Lemma lower_char_idempotent (c : ascii) :
  Py.lower_char (Py.lower_char c) = Py.lower_char c.
Proof. destruct c as [[] [] [] [] [] [] [] []]; reflexivity. Qed.

Lemma lower_idempotent (s : string) : Py.lower (Py.lower s) = Py.lower s.
Proof.
  induction s as [|c s IH]; [reflexivity|].
  cbn [Py.lower]. rewrite lower_char_idempotent, IH. reflexivity.
Qed.

Lemma lower_length (s : string) : String.length (Py.lower s) = String.length s.
Proof. induction s as [|c s IH]; simpl; congruence. Qed.

Lemma filter_idempotent {A : Type} (p : A -> bool) (l : list A) :
  filter p (filter p l) = filter p l.
Proof.
  induction l as [|x l IH]; [reflexivity|]. cbn [filter].
  destruct (p x) eqn:E; [cbn [filter]; rewrite E, IH|]; auto.
Qed.

Section Composition.
Variable isoformat : float -> string.
Variable now : string.
Variable format_1f : float -> string.
Variable json_dumps : Results -> string.

Lemma flatten_upto_datetimes : forall f c d,
  Forall (fun r => exists t, created_datetime r = isoformat t)
         (flatten_upto isoformat f c d).
Proof.
  induction f as [|f IH]; intros c d; [constructor|].
  cbn [flatten_upto]. constructor; [eexists; reflexivity|].
  destruct (load_all (replies c)) as [e|listed]; [constructor|].
  apply Forall_forall. intros r Hr. apply in_flat_map in Hr.
  destruct Hr as (k & _ & Hr).
  pose proof (IH k (d + 1)) as F. rewrite Forall_forall in F. exact (F r Hr).
Qed.

End Composition.

(** ** Lines of the exports *)

Lemma count_char_app (c : ascii) (a b : string) :
  count_char c (a +++ b) = count_char c a + count_char c b.
Proof. induction a as [|x a IH]; simpl; [reflexivity|]. rewrite IH. lia. Qed.

Lemma count_char_concat (c : ascii) (l : list string) :
  count_char c (String.concat EmptyString l) = list_sum (map (count_char c) l).
Proof.
  induction l as [|x l IH]; [reflexivity|].
  rewrite concat_cons, count_char_app, IH. reflexivity.
Qed.

Lemma count_lf_collapsed (s : string) :
  count_char Py.LF (Py.replace Py.LF " " s) = 0.
Proof.
  induction s as [|x s IH]; [reflexivity|].
  destruct (Ascii.eqb x Py.LF) eqn:E.
  - apply Ascii.eqb_eq in E. subst x. rewrite replace_same.
    change (" " +++ ?t) with (String Py.SPACE t). cbn [count_char]. rewrite IH.
    reflexivity.
  - rewrite (replace_other x Py.LF) by exact E. cbn [count_char].
    rewrite E, IH. reflexivity.
Qed.

Lemma count_lf_escaped (s : string) :
  count_char Py.LF (Py.replace Py.DQUOTE (DQ +++ DQ) s) = count_char Py.LF s.
Proof.
  induction s as [|x s IH]; [reflexivity|].
  destruct (Ascii.eqb x Py.DQUOTE) eqn:E.
  - apply Ascii.eqb_eq in E. subst x. rewrite replace_same, doubled_quote.
    cbn [count_char]. rewrite IH. reflexivity.
  - rewrite (replace_other x Py.DQUOTE) by exact E. cbn [count_char].
    rewrite IH. reflexivity.
Qed.

Lemma count_lf_plain (s : string) : plain s = true -> count_char Py.LF s = 0.
Proof.
  induction s as [|x s IH]; [reflexivity|]. intros H.
  apply plain_cons in H. destruct H as (_ & _ & H3 & H4).
  cbn [count_char]. rewrite H3, IH; auto.
Qed.

Lemma count_lf_csv_row (c : CommentData) :
  count_char Py.LF (csv_row c)
  = count_char Py.LF (id c) + count_char Py.LF (author c)
    + count_char Py.LF (created_datetime c) + 1.
Proof.
  unfold csv_row. rewrite !count_char_app.
  rewrite count_lf_collapsed, count_lf_escaped.
  rewrite (count_lf_plain _ (plain_str_int _)), (count_lf_plain _ (plain_str_nat _)),
    (count_lf_plain _ (plain_str_bool _)).
  change (count_char Py.LF DQ) with 0. change (count_char Py.LF ",") with 0.
  change (count_char Py.LF NL) with 1. lia.
Qed.



(** ** The further properties *)



Section Further.
Variable isoformat : float -> string.
Variable now : string.
Variable format_1f : float -> string.
Variable json_dumps : Results -> string.
Variable praw_Reddit : string -> string -> string -> Reddit.

(** X1.  When the API client cannot fetch the submission,
    [scrape_submission] raises the client's error after one call to the
    client.  It has not reached the lines that reset the scraper, so the
    comment counter and the comments collected by an earlier scrape are
    still there; no file is written. *)
Theorem scrape_submission_unknown_submission (reddit : Reddit) (sid err : string)
  (s : State) :
  reddit sid = inl err ->
  exists s',
    scrape_submission isoformat now format_1f reddit sid s
      = (Raise (Exception err), s') /\
    comment_count s' = comment_count s /\
    all_comments s' = all_comments s /\
    files s' = files s /\
    api_calls s' = api_calls s ++ [GetSubmission sid].
Proof.
  intros HR.
  rewrite (scrape_submission_fetch_raises isoformat now format_1f _ _ _ _ HR).
  eexists. split; [reflexivity|]. repeat split.
Qed.

(** X2.  When a placeholder of the top-level listing fails to load,
    [scrape_submission] raises the client's error: that call of
    [replace_more] is in no [try] block.  The scraper is reset by then, to
    no comment and a counter of zero. *)
Theorem scrape_submission_top_level_error (reddit : Reddit) (sid err : string)
  (submission : Submission) (s : State) :
  reddit sid = inr submission ->
  load_all (s_comments submission) = inl err ->
  exists s',
    scrape_submission isoformat now format_1f reddit sid s
      = (Raise (Exception err), s') /\
    comment_count s' = 0 /\
    all_comments s' = [] /\
    files s' = files s /\
    api_calls s' = api_calls s ++ [GetSubmission sid; ReplaceMore].
Proof.
  intros HR HL.
  destruct (scrape_submission_load_raises isoformat now format_1f
              reddit sid s submission err HR HL) as (out & E).
  rewrite E. eexists. split; [reflexivity|]. repeat split.
Qed.


(** X4.  What [scrape_submission] returns or raises does not depend on the
    state it starts in: the comments and the counter left by an earlier
    scrape are reset, not added to. *)
Theorem scrape_submission_forgets_earlier_runs (reddit : Reddit) (sid : string)
  (s1 s2 : State) :
  fst (scrape_submission isoformat now format_1f reddit sid s1)
  = fst (scrape_submission isoformat now format_1f reddit sid s2).
Proof.
  destruct (reddit sid) as [err|submission] eqn:HR.
  - rewrite !(scrape_submission_fetch_raises isoformat now format_1f _ _ _ _ HR).
    reflexivity.
  - destruct (load_all (s_comments submission)) as [err|tops] eqn:HL.
    + destruct (scrape_submission_load_raises isoformat now format_1f
                  reddit sid s1 submission err HR HL) as (o1 & E1).
      destruct (scrape_submission_load_raises isoformat now format_1f
                  reddit sid s2 submission err HR HL) as (o2 & E2).
      rewrite E1, E2. reflexivity.
    + destruct (scrape_submission_returns isoformat now format_1f
                  reddit sid s1 submission tops HR HL) as (t1 & E1 & _).
      destruct (scrape_submission_returns isoformat now format_1f
                  reddit sid s2 submission tops HR HL) as (t2 & E2 & _).
      rewrite E1, E2. reflexivity.
Qed.

(** X5.  [process_comment_tree] always returns.  It adds the number of
    records it returns to the comment counter, calls [replace_more] exactly
    once per record, and leaves the comments collected by the scraper and
    the files alone. *)
Theorem process_comment_tree_calls_once_per_comment (c : Comment) (d : nat)
  (s : State) :
  exists l s',
    process_comment_tree isoformat c d s = (Return l, s') /\
    comment_count s' = comment_count s + length l /\
    api_calls s' = api_calls s ++ repeat ReplaceMore (length l) /\
    all_comments s' = all_comments s /\
    files s' = files s.
Proof.
  destruct (process_comment_tree_upto_calls isoformat (height c) c d s)
    as (s' & E & V).
  eexists. exists s'. split; [exact E|exact V].
Qed.





(** X10.  [search_user] looks at the name up to case only: the name in
    lower case, or any name equal to it up to case, selects the same
    comments.  Searching the comments found for the same name finds them
    all again, and the search never returns more comments than there are. *)
Theorem search_user_ignores_case_of_name (results : Results) (username : string) :
  search_user results (Py.lower username) = search_user results username /\
  (forall other, Py.lower other = Py.lower username ->
                 search_user results other = search_user results username) /\
  search_user (mkResults (post results) (search_user results username)
                 (total_comments results) (scraped_at results)) username
    = search_user results username /\
  length (search_user results username) <= length (comments results).
Proof.
  unfold search_user. cbn [comments]. split; [rewrite lower_idempotent; reflexivity|].
  split; [intros other H; rewrite H; reflexivity|].
  split; [apply filter_idempotent|apply filter_length_le].
Qed.


(** X12.  With both credentials filled in, when the submission cannot be
    fetched or its top-level listing fails to load, [main] ends with that
    error and exit status 1 and has written no file. *)
Theorem main_aborts_on_scrape_error (CLIENT_ID CLIENT_SECRET USER_AGENT : string)
  (s : State) (err : string) :
  CLIENT_ID <> "YOUR_CLIENT_ID_HERE" ->
  CLIENT_SECRET <> "YOUR_CLIENT_SECRET_HERE" ->
  praw_Reddit CLIENT_ID CLIENT_SECRET USER_AGENT "1ptvi51" = inl err \/
  (exists submission,
      praw_Reddit CLIENT_ID CLIENT_SECRET USER_AGENT "1ptvi51" = inr submission /\
      load_all (s_comments submission) = inl err) ->
  exists s',
    main isoformat now format_1f json_dumps praw_Reddit
      CLIENT_ID CLIENT_SECRET USER_AGENT s = (Raise (Exception err), s') /\
    exit_status (Raise (Exception err)) = 1%Z /\
    files s' = files s.
Proof.
  intros H1 H2 H.
  destruct (main_stops_at_scrape_error isoformat now format_1f json_dumps
              praw_Reddit CLIENT_ID CLIENT_SECRET USER_AGENT s err H1 H2 H)
    as (s' & E & F).
  exists s'. repeat split; assumption.
Qed.

(** X13.  Scraping and exporting compose: when the time stamps are
    rendered without double quote and no comment id of the thread holds
    one, the CSV file [save_results] writes for the results of
    [scrape_submission] reads back to the id, author, score and depth of
    every flattened comment, in order. *)
Theorem scraped_csv_reads_back (reddit : Reddit) (sid : string)
  (submission : Submission) (top_level : list Comment) (s : State) :
  (forall t, quote_free (isoformat t) = true) ->
  reddit sid = inr submission ->
  load_all (s_comments submission) = inr top_level ->
  forallb quote_free (flat_map entry_ids (s_comments submission)) = true ->
  exists r s1,
    scrape_submission isoformat now format_1f reddit sid s = (Return r, s1) /\
    forall prefix, exists s2,
      save_results format_1f json_dumps r prefix s1 = (Return r, s2) /\
      In (prefix +++ ".csv", csv r) (files s2) /\
      map Csv.key (tl (Csv.read (csv r)))
        = map (fun c => Some (key_of c)) (comments r).
Proof.
  intros HQ HR HL HI.
  destruct (scrape_submission_returns isoformat now format_1f reddit sid s
              submission top_level HR HL) as (s1 & E & _).
  exists (scraped isoformat now submission top_level), s1. split; [exact E|].
  intros prefix. rewrite save_results_run. eexists. split; [reflexivity|].
  split.
  { cbn [files]. apply in_or_app. right. right. right. left. reflexivity. }
  rewrite read_csv.
  - cbn [tl]. rewrite map_map. apply map_ext. apply key_csv_fields.
  - apply Forall_forall. intros c Hc. split.
    + rewrite forallb_forall in HI. apply HI.
      apply (Subseq_In _ _ _ (flatten_forest_ids isoformat _ _ HL)).
      apply in_map. exact Hc.
    + cbn [scraped comments] in Hc. apply in_flat_map in Hc.
      destruct Hc as (k & _ & Hc).
      pose proof (flatten_upto_datetimes isoformat (height k) k 0) as F.
      rewrite Forall_forall in F. destruct (F c Hc) as (t & ->). apply HQ.
Qed.
End Further.

(** X14.  The CSV file has one line for the header and one per comment,
    plus one for every line feed in an id, an author or a time stamp: the
    line feeds of a body are replaced, those of the other quoted fields are
    written as they are.  When these fields hold none, the file has exactly
    one line per comment after the header. *)
Theorem csv_one_line_per_comment (results : Results) :
  count_char Py.LF (csv results)
  = 1 + length (comments results)
    + list_sum (map (fun c => count_char Py.LF (id c) + count_char Py.LF (author c)
                              + count_char Py.LF (created_datetime c))
                    (comments results)) /\
  (Forall (fun c => count_char Py.LF (id c) = 0 /\
                    count_char Py.LF (author c) = 0 /\
                    count_char Py.LF (created_datetime c) = 0) (comments results) ->
   count_char Py.LF (csv results) = 1 + length (comments results)).
Proof.
  assert (G : forall l,
    list_sum (map (count_char Py.LF) (map csv_row l))
    = length l + list_sum (map (fun c => count_char Py.LF (id c)
                                         + count_char Py.LF (author c)
                                         + count_char Py.LF (created_datetime c)) l)).
  { induction l as [|c l IH]; [reflexivity|].
    cbn [map length].
    change (list_sum (?x :: ?t)) with (x + list_sum t).
    rewrite count_lf_csv_row, IH. lia. }
  assert (E : count_char Py.LF (csv results)
              = 1 + length (comments results)
                + list_sum (map (fun c => count_char Py.LF (id c)
                                          + count_char Py.LF (author c)
                                          + count_char Py.LF (created_datetime c))
                                (comments results))).
  { unfold csv. rewrite count_char_app, count_char_concat, G.
    change (count_char Py.LF csv_header) with 1. lia. }
  split; [exact E|]. intros F. rewrite E.
  assert (Z : forall l,
    Forall (fun c => count_char Py.LF (id c) = 0 /\
                     count_char Py.LF (author c) = 0 /\
                     count_char Py.LF (created_datetime c) = 0) l ->
    list_sum (map (fun c => count_char Py.LF (id c) + count_char Py.LF (author c)
                            + count_char Py.LF (created_datetime c)) l) = 0).
  { induction 1 as [|c l (H1 & H2 & H3) _ IH]; [reflexivity|].
    cbn [map]. change (list_sum (?x :: ?t)) with (x + list_sum t).
    rewrite H1, H2, H3, IH. reflexivity. }
  rewrite (Z _ F). lia.
Qed.


(** ** The further properties on sample data *)

Lemma scrape_submission_unknown_submission_witness :
  exists s',
    scrape_submission Sample.isoformat Sample.now Sample.format_1f
      (Sample.offline "id" "secret" "agent") "1ptvi51"
      (mkState 7 [Sample.record "old" "dave" "kept" 1 0] [] [] [])
    = (Raise (Exception "received 503 HTTP response"), s') /\
    comment_count s' = 7 /\
    all_comments s' = [Sample.record "old" "dave" "kept" 1 0] /\
    api_calls s' = [GetSubmission "1ptvi51"].
Proof.
  destruct (scrape_submission_unknown_submission Sample.isoformat Sample.now
              Sample.format_1f (Sample.offline "id" "secret" "agent") "1ptvi51"
              "received 503 HTTP response"
              (mkState 7 [Sample.record "old" "dave" "kept" 1 0] [] [] [])
              eq_refl) as (s' & E & N & A & _ & C).
  exists s'. repeat split; assumption.
Defined.

Lemma scrape_submission_top_level_error_witness :
  exists s',
    scrape_submission Sample.isoformat Sample.now Sample.format_1f
      (Sample.reddit [Reply (Sample.comment "top" None "first" 5) []; MoreFails "429"])
      "1ptvi51"
      (mkState 7 [Sample.record "old" "dave" "kept" 1 0] [] [] [])
    = (Raise (Exception "429"), s') /\
    comment_count s' = 0 /\
    all_comments s' = [] /\
    files s' = [].
Proof.
  destruct (scrape_submission_top_level_error Sample.isoformat Sample.now
              Sample.format_1f
              (Sample.reddit [Reply (Sample.comment "top" None "first" 5) [];
                              MoreFails "429"])
              "1ptvi51" "429" _
              (mkState 7 [Sample.record "old" "dave" "kept" 1 0] [] [] [])
              eq_refl eq_refl) as (s' & E & N & A & F & _).
  exists s'. repeat split; assumption.
Defined.





Lemma main_aborts_on_scrape_error_witness :
  exists s',
    main Sample.isoformat Sample.now Sample.format_1f Sample.json_dumps
      Sample.offline "my_id" "my_secret" "script:v1 (by /u/me)" initial_state
    = (Raise (Exception "received 503 HTTP response"), s') /\
    files s' = [].
Proof.
  destruct (main_aborts_on_scrape_error Sample.isoformat Sample.now
              Sample.format_1f Sample.json_dumps Sample.offline
              "my_id" "my_secret" "script:v1 (by /u/me)" initial_state
              "received 503 HTTP response")
    as (s' & E & _ & F);
    [discriminate|discriminate|left; reflexivity|].
  exists s'. split; [exact E|exact F].
Defined.

Lemma scraped_csv_reads_back_witness :
  exists r s1,
    scrape_submission Sample.isoformat Sample.now Sample.format_1f
      (Sample.reddit Sample.thread) "1ptvi51" initial_state = (Return r, s1) /\
    map Csv.key (tl (Csv.read (csv r)))
      = [ Some ("top", "alice", 5%Z, 0); Some ("r1", "Bob", 7%Z, 1);
          Some ("r1a", "[deleted]", 5%Z, 2); Some ("r2", "bob", 7%Z, 1) ].
Proof.
  destruct (scraped_csv_reads_back Sample.isoformat Sample.now Sample.format_1f
              Sample.json_dumps (Sample.reddit Sample.thread) "1ptvi51" _ _
              initial_state (fun _ => eq_refl) eq_refl eq_refl eq_refl)
    as (r & s1 & E & H).
  exists r, s1. split; [exact E|].
  destruct (H "out") as (s2 & _ & _ & K). rewrite K.
  destruct (scrape_submission_returns Sample.isoformat Sample.now Sample.format_1f
              (Sample.reddit Sample.thread) "1ptvi51" initial_state _ _
              eq_refl eq_refl) as (s1' & E' & _).
  rewrite E' in E. injection E as <- _. reflexivity.
Defined.

Lemma csv_one_line_per_comment_witness :
  count_char Py.LF (csv Sample.quoting) = 4 /\
  length (comments Sample.quoting) = 3.
Proof.
  destruct (csv_one_line_per_comment Sample.quoting) as (_ & H).
  split; [|reflexivity]. apply H. repeat constructor.
Defined.
